(** * Relay dispatch and reply verification of the lava chain proxy

    A shallow embedding of package [chainproxy]: the factory
    [GetChainProxy], the reply authenticator [VerifyRelayReply], and the
    dispatcher [SendRelay] with its two closures [callback_send_relay] and
    [callback_send_reliability].

    The collaborators the package imports (sigs, sdk, sentry, lavasession,
    the gRPC relayer client, the clock) are not part of the package; they
    appear as records of functions, and every theorem is stated for an
    arbitrary instance of them.  Calls that leave the process (signing,
    transport sends, session lease and release) are logged in a trace, so
    that "was never sent" and "was released once" are statements about the
    trace. *)

From Stdlib Require Import ZArith String List Bool Lia.
Import ListNotations.
Local Open Scope string_scope.
Local Open Scope Z_scope.
Local Open Scope list_scope.

(** ** Go values *)

Definition bytes := list Byte.byte.

(** [uint64(x)] and [int64(x)]: conversion to a 64-bit type wraps. *)
Definition uint64 (x : Z) : Z := x mod 2 ^ 64.
Definition int64 (x : Z) : Z := (x + 2 ^ 63) mod 2 ^ 64 - 2 ^ 63.

(** [x++] on a uint64 field. *)
Definition incr_uint64 (x : Z) : Z := uint64 (x + 1).

Definition max_uint64 : Z := 2 ^ 64 - 1.

(** A Go [error] value.  The package only ever reads an error through its
    [Error()] text; the three constructors keep apart the sentinel of
    package context, errors made by [fmt.Errorf] in this package, and errors
    handed back by a collaborator. *)
Inductive error : Type :=
| context_DeadlineExceeded
| fmt_Errorf (msg : string)
| foreign_error (origin : string) (msg : string).

Definition Error (e : error) : string :=
  match e with
  | context_DeadlineExceeded => "context deadline exceeded"
  | fmt_Errorf msg => msg
  | foreign_error _ msg => msg
  end.

(** A Go [(value, err)] pair in which exactly one side is meaningful. *)
Inductive result (A : Type) : Type :=
| Ok (a : A)
| Err (e : error).
Arguments Ok {A} a.
Arguments Err {A} e.

(** What a call does in the end: it returns, or the goroutine panics. *)
Inductive outcome (A : Type) : Type :=
| Returned (a : A)
| Panicked (msg : string).
Arguments Returned {A} a.
Arguments Panicked {A} msg.

Definition nil_dereference : string :=
  "invalid memory address or nil pointer dereference".

(** [time.Duration] counts nanoseconds. *)
Definition time_Second : Z := 1000000000.

(** const DefaultTimeout = 5 * time.Second *)
Definition DefaultTimeout : Z := 5 * time_Second.

(** A [context.Context] is known by how it was derived. *)
Inductive Context : Type :=
| context_Background
| context_WithTimeout (parent : Context) (timeout : Z).

(** ** Wire types (package pairingtypes) *)

Record QoSReport : Type := mkQoSReport {
  Latency : string;
  Availability : string;
  Sync : string
}.

Record VRFData : Type := mkVRFData {
  vrf_material : bytes;
  vrf_Sig : bytes
}.

Definition set_vrf_Sig (v : VRFData) (sig : bytes) : VRFData :=
  {| vrf_material := vrf_material v; vrf_Sig := sig |}.

Record RelayRequest : Type := mkRelayRequest {
  Provider : string;
  ConnectionType : string;
  ApiUrl : string;
  Data : bytes;
  SessionId : Z;
  ChainID : string;
  CuSum : Z;
  BlockHeight : Z;
  RelayNum : Z;
  RequestBlock : Z;
  QoSReport_ : option QoSReport;
  DataReliability : option VRFData;
  UnresponsiveProviders : bytes;
  Sig : bytes
}.

Definition set_Sig (r : RelayRequest) (sig : bytes) : RelayRequest :=
  {| Provider := Provider r; ConnectionType := ConnectionType r;
     ApiUrl := ApiUrl r; Data := Data r; SessionId := SessionId r;
     ChainID := ChainID r; CuSum := CuSum r; BlockHeight := BlockHeight r;
     RelayNum := RelayNum r; RequestBlock := RequestBlock r;
     QoSReport_ := QoSReport_ r; DataReliability := DataReliability r;
     UnresponsiveProviders := UnresponsiveProviders r; Sig := sig |}.

Definition set_DataReliability (r : RelayRequest) (d : option VRFData)
  : RelayRequest :=
  {| Provider := Provider r; ConnectionType := ConnectionType r;
     ApiUrl := ApiUrl r; Data := Data r; SessionId := SessionId r;
     ChainID := ChainID r; CuSum := CuSum r; BlockHeight := BlockHeight r;
     RelayNum := RelayNum r; RequestBlock := RequestBlock r;
     QoSReport_ := QoSReport_ r; DataReliability := d;
     UnresponsiveProviders := UnresponsiveProviders r; Sig := Sig r |}.

Record RelayReply : Type := mkRelayReply {
  reply_Data : bytes;
  reply_Sig : bytes;
  LatestBlock : Z;
  SigBlocks : bytes
}.

(** A [Relayer_RelaySubscribeClient]: the handle of an open stream. *)
Definition SubscribeClient := N.

(** ** Session state (package lavasession) *)

(** The counters of [QoSInfo] are uint64 fields. *)
Record QoSInfo : Type := mkQoSInfo {
  LastQoSReport : option QoSReport;
  TotalRelays : Z;
  AnsweredRelays : Z;
  ConsecutiveTimeOut : Z
}.

Record SingleConsumerSession : Type := mkSession {
  session_CuSum : Z;
  session_RelayNum : Z;
  session_SessionId : Z;
  QoSInfo_ : QoSInfo;
  Client_Acc : string;
  Endpoint : string
}.

Definition set_QoSInfo (cs : SingleConsumerSession) (q : QoSInfo)
  : SingleConsumerSession :=
  {| session_CuSum := session_CuSum cs; session_RelayNum := session_RelayNum cs;
     session_SessionId := session_SessionId cs; QoSInfo_ := q;
     Client_Acc := Client_Acc cs; Endpoint := Endpoint cs |}.

Definition set_TotalRelays (q : QoSInfo) (n : Z) : QoSInfo :=
  {| LastQoSReport := LastQoSReport q; TotalRelays := n;
     AnsweredRelays := AnsweredRelays q;
     ConsecutiveTimeOut := ConsecutiveTimeOut q |}.

Definition set_AnsweredRelays (q : QoSInfo) (n : Z) : QoSInfo :=
  {| LastQoSReport := LastQoSReport q; TotalRelays := TotalRelays q;
     AnsweredRelays := n;
     ConsecutiveTimeOut := ConsecutiveTimeOut q |}.

Definition set_ConsecutiveTimeOut (q : QoSInfo) (n : Z) : QoSInfo :=
  {| LastQoSReport := LastQoSReport q; TotalRelays := TotalRelays q;
     AnsweredRelays := AnsweredRelays q;
     ConsecutiveTimeOut := n |}.

(** ** Parsed messages (package spectypes and the [NodeMessage] interface) *)

Record SpecCategory : Type := mkSpecCategory {
  Deterministic : bool;
  Subscription : bool
}.

Record ServiceApi : Type := mkServiceApi {
  ComputeUnits : Z;
  Category : SpecCategory
}.

(** The two getters of [NodeMessage] that [SendRelay] calls. *)
Record NodeMessage : Type := mkNodeMessage {
  GetServiceApi : ServiceApi;
  RequestedBlock : Z
}.

(** ** The trace of calls that leave the process *)

Definition PrivateKey := bytes.
Definition PubKey := bytes.
Definition AccAddress := bytes.

Inductive Event : Type :=
| EvGetSession (ctx : Context) (cu : Z)
| EvSignRelay (request : RelayRequest)
| EvSignVRFData (vrf : option VRFData)
| EvRelay (ctx : Context) (request : RelayRequest)
| EvRelaySubscribe (ctx : Context) (request : RelayRequest)
| EvOnSessionDone (cs : SingleConsumerSession) (epoch : Z) (latestBlock : Z).

Definition is_send (e : Event) : bool :=
  match e with
  | EvRelay _ _ | EvRelaySubscribe _ _ => true
  | _ => false
  end.

Definition is_release (e : Event) : bool :=
  match e with
  | EvOnSessionDone _ _ _ => true
  | _ => false
  end.

(** The transport sends of a trace, oldest first. *)
Definition sends (tr : list Event) : list Event := filter is_send tr.

(** How many times the session manager was told the session is done. *)
Definition releases (tr : list Event) : nat := length (filter is_release tr).

(** ** Collaborators *)

(** Package sigs. *)
Record Sigs : Type := mkSigs {
  SignRelay : PrivateKey -> RelayRequest -> result bytes;
  SignVRFData : PrivateKey -> option VRFData -> result bytes;
  RecoverPubKeyFromRelayReply : RelayReply -> RelayRequest -> result PubKey;
  RecoverPubKeyFromResponseFinalizationData :
    RelayReply -> RelayRequest -> AccAddress -> result PubKey
}.

(** The address functions of the cosmos sdk: [key.Address().String()],
    [sdk.AccAddressFromHex], [sdk.AccAddressFromBech32] and
    [AccAddress.String()]. *)
Record Sdk : Type := mkSdk {
  PubKey_Address_String : PubKey -> string;
  AccAddressFromHex : string -> result AccAddress;
  AccAddressFromBech32 : string -> result AccAddress;
  AccAddress_String : AccAddress -> string
}.

(** ** VerifyRelayReply *)

Section Verify.
Variable sigs : Sigs.
Variable sdk : Sdk.

Definition mismatch_in_reply (serverAddr addr : string) : error :=
  fmt_Errorf ("server address mismatch in reply (" ++ serverAddr ++ ") ("
              ++ addr ++ ")").

Definition mismatch_in_sigblocks (serverAddr strAdd : string) : error :=
  fmt_Errorf ("server address mismatch in reply sigblocks (" ++ serverAddr
              ++ ") (" ++ strAdd ++ ")").

(** The result is the Go [error]: [None] is nil. *)
Definition VerifyRelayReply (reply : RelayReply) (relayRequest : RelayRequest)
    (addr : string) (comparesHashes : bool) : option error :=
  match RecoverPubKeyFromRelayReply sigs reply relayRequest with
  | Err err => Some err
  | Ok serverKey =>
    match AccAddressFromHex sdk (PubKey_Address_String sdk serverKey) with
    | Err err => Some err
    | Ok serverAddr =>
      if negb (AccAddress_String sdk serverAddr =? addr)%string then
        Some (mismatch_in_reply (AccAddress_String sdk serverAddr) addr)
      else if comparesHashes then
        match AccAddressFromBech32 sdk addr with
        | Err err => Some err
        | Ok strAdd =>
          match RecoverPubKeyFromResponseFinalizationData
                  sigs reply relayRequest strAdd with
          | Err err => Some err
          | Ok serverKey =>
            match AccAddressFromHex sdk
                    (PubKey_Address_String sdk serverKey) with
            | Err err => Some err
            | Ok serverAddr =>
              if negb (AccAddress_String sdk serverAddr
                       =? AccAddress_String sdk strAdd)%string
              then Some (mismatch_in_sigblocks
                           (AccAddress_String sdk serverAddr)
                           (AccAddress_String sdk strAdd))
              else None
            end
          end
        end
      else None
    end
  end.
End Verify.

(** ** The orchestrator, the session manager and the chain proxy *)

(** What the two closures hand back: Go tuples, [None] standing for nil.  The
    subscription handle is returned as a pointer to the local variable, hence
    the two layers of option: [Some None] is a pointer to a nil interface. *)
Definition RelayCallbackResult : Type :=
  option RelayReply * option (option SubscribeClient) * option RelayRequest
  * option error.

Definition ReliabilityCallbackResult : Type :=
  option RelayReply * option RelayRequest * option error.

Definition SendRelayResult : Type :=
  option RelayReply * option (option SubscribeClient) * option error.

(** [sentry.SendRelay] lives in package sentry.  It receives the two closures
    and decides when to call them; whatever it does to the variables and the
    session of [SendRelay], it does through those calls.  One run of it is
    therefore a strategy: return, or call a closure and go on with what the
    closure returned. *)
Inductive Orchestration : Type :=
| orch_return (res : SendRelayResult)
| orch_send_relay (unresponsiveProviders : bytes)
    (k : RelayCallbackResult -> Orchestration)
| orch_send_reliability (dataReliability : option VRFData)
    (unresponsiveProviders : bytes)
    (k : ReliabilityCallbackResult -> Orchestration).

Record Sentry : Type := mkSentry {
  ApiInterface : string;
  sentry_ChainID : string;
  GetSpecComparesHashes : bool;
  ExpectedBlockHeight : list Event -> Z * Z;
  GetProvidersCount : Z;
  sentry_SendRelay :
    Context -> SingleConsumerSession -> bytes -> Z -> string -> SpecCategory ->
    Orchestration
}.

(** [GetSession] yields the session, the epoch, the provider's public address
    and the reported providers.  Its third argument is always nil here. *)
Record ConsumerSessionManager : Type := mkConsumerSessionManager {
  GetSession :
    Context -> Z -> result (SingleConsumerSession * Z * string * bytes)
}.

(** The methods of the [ChainProxy] interface that [SendRelay] calls. *)
Record ChainProxy : Type := mkChainProxy {
  ParseMsg : string -> bytes -> string -> result NodeMessage;
  GetSentry : Sentry;
  GetConsumerSessionManager : ConsumerSessionManager
}.

(** ** GetChainProxy *)

Section Factory.
(** The three constructors are declared in sibling files of the package;
    each allocates its proxy and returns it, so the interface value they
    yield is never nil.  [zero_ConsumerSessionManager] is the value of
    [&lavasession.ConsumerSessionManager{}]. *)
Variable NewJrpcChainProxy :
  string -> Z -> Sentry -> ConsumerSessionManager -> ChainProxy.
Variable NewtendermintRpcChainProxy :
  string -> Z -> Sentry -> ConsumerSessionManager -> ChainProxy.
Variable NewRestChainProxy :
  string -> Sentry -> ConsumerSessionManager -> ChainProxy.
Variable zero_ConsumerSessionManager : ConsumerSessionManager.

Definition GetChainProxy (nodeUrl : string) (nConns : Z) (sentry : Sentry)
  : option ChainProxy * option error :=
  let consumerSessionManagerInstance := zero_ConsumerSessionManager in
  if (ApiInterface sentry =? "jsonrpc")%string then
    (Some (NewJrpcChainProxy nodeUrl nConns sentry
             consumerSessionManagerInstance), None)
  else if (ApiInterface sentry =? "tendermintrpc")%string then
    (Some (NewtendermintRpcChainProxy nodeUrl nConns sentry
             consumerSessionManagerInstance), None)
  else if (ApiInterface sentry =? "rest")%string then
    (Some (NewRestChainProxy nodeUrl sentry consumerSessionManagerInstance),
     None)
  else
    (None, Some (fmt_Errorf ("chain proxy for apiInterface ("
                             ++ ApiInterface sentry ++ ") not found"))).
End Factory.

(** The selectors the switch knows, and the error for any other one. *)
Definition supported_interface (sel : string) : Prop :=
  sel = "jsonrpc" \/ sel = "tendermintrpc" \/ sel = "rest".

Definition interface_not_found (sel : string) : error :=
  fmt_Errorf ("chain proxy for apiInterface (" ++ sel ++ ") not found").

(** ** The world around one relay *)

(** The relayer client of the session's endpoint, the clock, and the two
    helpers of sentry and lavasession that the primary closure calls.  The
    transport and the clock may answer differently from call to call: they
    are given the trace so far. *)
Record World : Type := mkWorld {
  sigs : Sigs;
  sdk : Sdk;
  Relay : list Event -> string -> Context -> RelayRequest -> result RelayReply;
  RelaySubscribe :
    list Event -> string -> Context -> RelayRequest -> result SubscribeClient;
  time_Now : list Event -> Z;
  time_Since : list Event -> Z -> Z;
  UpdateRequestedBlock : RelayRequest -> RelayReply -> RelayRequest;
  CalculateQoS :
    SingleConsumerSession -> Z -> Z -> Z -> Z -> Z -> SingleConsumerSession
}.

(** The variables of [SendRelay] that the closures capture and never assign. *)
Record Closure : Type := mkClosure {
  ctx : Context;
  cp : ChainProxy;
  privKey : PrivateKey;
  url : string;
  req : string;
  connectionType : string;
  nodeMsg : NodeMessage;
  isSubscription : bool;
  epoch : Z;
  providerPublicAddress : string
}.

(** What the closures change: the leased session, the two captured variables
    [blockHeight] and [requestedBlock], and the trace. *)
Record RelayState : Type := mkRelayState {
  consumerSession : SingleConsumerSession;
  blockHeight : Z;
  requestedBlock : Z;
  trace : list Event
}.

Definition emit (e : Event) (s : RelayState) : RelayState :=
  {| consumerSession := consumerSession s; blockHeight := blockHeight s;
     requestedBlock := requestedBlock s; trace := trace s ++ [e] |}.

Definition set_blockHeight (h : Z) (s : RelayState) : RelayState :=
  {| consumerSession := consumerSession s; blockHeight := h;
     requestedBlock := requestedBlock s; trace := trace s |}.

Definition set_requestedBlock (b : Z) (s : RelayState) : RelayState :=
  {| consumerSession := consumerSession s; blockHeight := blockHeight s;
     requestedBlock := b; trace := trace s |}.

Definition set_consumerSession (cs : SingleConsumerSession) (s : RelayState)
  : RelayState :=
  {| consumerSession := cs; blockHeight := blockHeight s;
     requestedBlock := requestedBlock s; trace := trace s |}.

Definition update_QoSInfo (f : QoSInfo -> QoSInfo) (s : RelayState)
  : RelayState :=
  set_consumerSession
    (set_QoSInfo (consumerSession s) (f (QoSInfo_ (consumerSession s)))) s.

(** The three counter statements of the primary closure. *)
Definition TotalRelays_incr : RelayState -> RelayState :=
  update_QoSInfo (fun q => set_TotalRelays q (incr_uint64 (TotalRelays q))).

Definition AnsweredRelays_incr : RelayState -> RelayState :=
  update_QoSInfo (fun q => set_AnsweredRelays q (incr_uint64 (AnsweredRelays q))).

Definition ConsecutiveTimeOut_incr : RelayState -> RelayState :=
  update_QoSInfo
    (fun q => set_ConsecutiveTimeOut q (incr_uint64 (ConsecutiveTimeOut q))).

Definition ConsecutiveTimeOut_reset : RelayState -> RelayState :=
  update_QoSInfo (fun q => set_ConsecutiveTimeOut q 0).

(** [err.Error() == context.DeadlineExceeded.Error()] *)
Definition is_deadline_exceeded (err : error) : bool :=
  (Error err =? Error context_DeadlineExceeded)%string.

(** The three counters of the leased session. *)
Definition timeouts (s : RelayState) : Z :=
  ConsecutiveTimeOut (QoSInfo_ (consumerSession s)).

Definition total (s : RelayState) : Z :=
  TotalRelays (QoSInfo_ (consumerSession s)).

Definition answered (s : RelayState) : Z :=
  AnsweredRelays (QoSInfo_ (consumerSession s)).

(** [CalculateQoS] is a method of the session in package lavasession.  The
    closure increments and resets the three counters itself; the facts below
    about the counters after a scored relay hold for a scorer that only
    reads them. *)
Definition scorer_keeps_counters (w : World) : Prop :=
  forall cs cu latency blockHeightDiff numOfProviders servicersToCount,
    let q := QoSInfo_ cs in
    let q' :=
      QoSInfo_ (CalculateQoS w cs cu latency blockHeightDiff numOfProviders
                  servicersToCount) in
    TotalRelays q' = TotalRelays q
    /\ AnsweredRelays q' = AnsweredRelays q
    /\ ConsecutiveTimeOut q' = ConsecutiveTimeOut q.

(** ** The two closures of SendRelay *)

Section Closures.
Variable w : World.
Variable cl : Closure.

(** The request literal of the primary closure, before it is signed. *)
Definition primary_request (unresponsiveProviders : bytes) (s : RelayState)
  : RelayRequest :=
  {| Provider := providerPublicAddress cl;
     ConnectionType := connectionType cl;
     ApiUrl := url cl;
     Data := list_byte_of_string (req cl);
     SessionId := uint64 (session_SessionId (consumerSession s));
     ChainID := sentry_ChainID (GetSentry (cp cl));
     CuSum := session_CuSum (consumerSession s);
     BlockHeight := blockHeight s;
     RelayNum := session_RelayNum (consumerSession s);
     RequestBlock := RequestedBlock (nodeMsg cl);
     QoSReport_ := LastQoSReport (QoSInfo_ (consumerSession s));
     DataReliability := None;
     UnresponsiveProviders := unresponsiveProviders;
     Sig := [] |}.

(** The error branch after the send: count a timeout, hand the error on. *)
Definition send_failed (err : error) (s : RelayState)
  : RelayState * RelayCallbackResult :=
  ((if is_deadline_exceeded err then ConsecutiveTimeOut_incr s else s),
   (None, None, None, Some err)).

(** The branch [if !isSubscription] after a unary reply has arrived. *)
Definition relay_answered (relaySentTime : Z) (relayRequest : RelayRequest)
    (reply : RelayReply) (s : RelayState)
  : RelayState * RelayCallbackResult :=
  let currentLatency := time_Since w (trace s) relaySentTime in
  let s := ConsecutiveTimeOut_reset s in
  let s := AnsweredRelays_incr s in
  let relayRequest := UpdateRequestedBlock w relayRequest reply in
  let s := set_requestedBlock (RequestBlock relayRequest) s in
  match VerifyRelayReply (sigs w) (sdk w) reply relayRequest
          (Client_Acc (consumerSession s))
          (GetSpecComparesHashes (GetSentry (cp cl))) with
  | Some err => (s, (None, None, None, Some err))
  | None =>
    let '(expectedBH, numOfProviders) :=
      ExpectedBlockHeight (GetSentry (cp cl)) (trace s) in
    let s :=
      set_consumerSession
        (CalculateQoS w (consumerSession s)
           (ComputeUnits (GetServiceApi (nodeMsg cl)))
           currentLatency
           (int64 (expectedBH - LatestBlock reply))
           numOfProviders
           (int64 (GetProvidersCount (GetSentry (cp cl)))))
        s in
    (s, (Some reply, Some None, Some relayRequest, None))
  end.

Definition callback_send_relay (unresponsiveProviders : bytes)
    (s : RelayState) : RelayState * RelayCallbackResult :=
  let s := set_blockHeight (int64 (epoch cl)) s in
  let relayRequest := primary_request unresponsiveProviders s in
  let s := emit (EvSignRelay relayRequest) s in
  match SignRelay (sigs w) (privKey cl) relayRequest with
  | Err err => (s, (None, None, None, Some err))
  | Ok sig =>
    let relayRequest := set_Sig relayRequest sig in
    let c := Endpoint (consumerSession s) in
    let relaySentTime := time_Now w (trace s) in
    let s := TotalRelays_incr s in
    let connectCtx := context_WithTimeout (ctx cl) DefaultTimeout in
    if isSubscription cl then
      match RelaySubscribe w (trace s) c (ctx cl) relayRequest with
      | Err err =>
        send_failed err (emit (EvRelaySubscribe (ctx cl) relayRequest) s)
      | Ok replyServer =>
        (emit (EvRelaySubscribe (ctx cl) relayRequest) s,
         (None, Some (Some replyServer), Some relayRequest, None))
      end
    else
      match Relay w (trace s) c connectCtx relayRequest with
      | Err err =>
        send_failed err (emit (EvRelay connectCtx relayRequest) s)
      | Ok reply =>
        relay_answered relaySentTime relayRequest reply
          (emit (EvRelay connectCtx relayRequest) s)
      end
  end.

(** The request literal of the reliability closure, before it is signed. *)
Definition reliability_request (dataReliability : option VRFData)
    (unresponsiveProviders : bytes) (s : RelayState) : RelayRequest :=
  {| Provider := Client_Acc (consumerSession s);
     ConnectionType := connectionType cl;
     ApiUrl := url cl;
     Data := list_byte_of_string (req cl);
     SessionId := uint64 0;
     ChainID := sentry_ChainID (GetSentry (cp cl));
     CuSum := session_CuSum (consumerSession s);
     BlockHeight := blockHeight s;
     RelayNum := session_RelayNum (consumerSession s);
     RequestBlock := requestedBlock s;
     QoSReport_ := None;
     DataReliability := dataReliability;
     UnresponsiveProviders := unresponsiveProviders;
     Sig := [] |}.

Definition called_too_early : error :=
  fmt_Errorf
    "expected callback_send_relay to be called first and set blockHeight".

(** Writing [relayRequest.DataReliability.Sig] goes through the pointer the
    orchestrator passed in: with a nil pointer the closure panics. *)
Definition callback_send_reliability (dataReliability : option VRFData)
    (unresponsiveProviders : bytes) (s : RelayState)
  : RelayState * outcome ReliabilityCallbackResult :=
  let sentry := GetSentry (cp cl) in
  if blockHeight s <? 0 then
    (s, Returned (None, None, Some called_too_early))
  else
    let relayRequest :=
      reliability_request dataReliability unresponsiveProviders s in
    let s := emit (EvSignRelay relayRequest) s in
    match SignRelay (sigs w) (privKey cl) relayRequest with
    | Err err => (s, Returned (None, None, Some err))
    | Ok sig =>
      let relayRequest := set_Sig relayRequest sig in
      let s := emit (EvSignVRFData (DataReliability relayRequest)) s in
      match SignVRFData (sigs w) (privKey cl)
              (DataReliability relayRequest) with
      | Err err => (s, Returned (None, None, Some err))
      | Ok sig =>
        match DataReliability relayRequest with
        | None => (s, Panicked nil_dereference)
        | Some vrf =>
          let relayRequest :=
            set_DataReliability relayRequest (Some (set_vrf_Sig vrf sig)) in
          let c := Endpoint (consumerSession s) in
          let s' := emit (EvRelay (ctx cl) relayRequest) s in
          match Relay w (trace s) c (ctx cl) relayRequest with
          | Err err => (s', Returned (None, None, Some err))
          | Ok reply =>
            match VerifyRelayReply (sigs w) (sdk w) reply relayRequest
                    (Client_Acc (consumerSession s'))
                    (GetSpecComparesHashes (GetSentry (cp cl))) with
            | Some err => (s', Returned (None, None, Some err))
            | None => (s', Returned (Some reply, Some relayRequest, None))
            end
          end
        end
      end
    end.

(** Running the orchestrator against the two closures. *)
Fixpoint run_orchestration (o : Orchestration) (s : RelayState)
  : RelayState * outcome SendRelayResult :=
  match o with
  | orch_return res => (s, Returned res)
  | orch_send_relay unresponsiveProviders k =>
    let '(s', res) := callback_send_relay unresponsiveProviders s in
    run_orchestration (k res) s'
  | orch_send_reliability dataReliability unresponsiveProviders k =>
    match callback_send_reliability dataReliability unresponsiveProviders s
    with
    | (s', Returned res) => run_orchestration (k res) s'
    | (s', Panicked msg) => (s', Panicked msg)
    end
  end.
End Closures.

(** ** SendRelay *)

(** The state right after the lease: [blockHeight := int64(-1)] and
    [requestedBlock := int64(0)]. *)
Definition initial_state (session : SingleConsumerSession) (tr : list Event)
  : RelayState :=
  {| consumerSession := session; blockHeight := int64 (-1);
     requestedBlock := int64 0; trace := tr |}.

Definition SendRelay (w : World) (ctx : Context) (cp : ChainProxy)
    (privKey : PrivateKey) (url req connectionType : string)
    (tr : list Event) : list Event * outcome SendRelayResult :=
  match ParseMsg cp url (list_byte_of_string req) connectionType with
  | Err err => (tr, Returned (None, None, Some err))
  | Ok nodeMsg =>
    let isSubscription := Subscription (Category (GetServiceApi nodeMsg)) in
    let cu := ComputeUnits (GetServiceApi nodeMsg) in
    let tr := tr ++ [EvGetSession ctx cu] in
    match GetSession (GetConsumerSessionManager cp) ctx cu with
    | Err err => (tr, Returned (None, None, Some err))
    | Ok (session, epoch, providerPublicAddress, reportedProviders) =>
      let cl :=
        {| ctx := ctx; cp := cp; privKey := privKey; url := url; req := req;
           connectionType := connectionType; nodeMsg := nodeMsg;
           isSubscription := isSubscription; epoch := epoch;
           providerPublicAddress := providerPublicAddress |} in
      let s := initial_state session tr in
      match run_orchestration w cl
              (sentry_SendRelay (GetSentry cp) ctx session
                 reportedProviders epoch providerPublicAddress
                 (Category (GetServiceApi nodeMsg))) s with
      | (s, Panicked msg) => (trace s, Panicked msg)
      | (s, Returned (reply, replyServer, err)) =>
        match reply with
        | None => (trace s, Panicked nil_dereference)
        | Some r =>
          let latestBlock := LatestBlock r in
          (trace s ++ [EvOnSessionDone (consumerSession s) epoch latestBlock],
           Returned (reply, replyServer, err))
        end
      end
    end
  end.

(** ** A concrete network

    A toy instance of every collaborator, small enough to evaluate.  A
    provider signs by writing its address into the reply; the endpoint name
    selects how the provider behaves. *)

Definition LATEST_BLOCK : Z := -2.

Definition set_RequestBlock (r : RelayRequest) (b : Z) : RelayRequest :=
  {| Provider := Provider r; ConnectionType := ConnectionType r;
     ApiUrl := ApiUrl r; Data := Data r; SessionId := SessionId r;
     ChainID := ChainID r; CuSum := CuSum r; BlockHeight := BlockHeight r;
     RelayNum := RelayNum r; RequestBlock := b;
     QoSReport_ := QoSReport_ r; DataReliability := DataReliability r;
     UnresponsiveProviders := UnresponsiveProviders r; Sig := Sig r |}.

Definition toy_sigs : Sigs :=
  {| SignRelay := fun key _ =>
       match key with
       | [] => Err (foreign_error "sigs" "empty private key")
       | _ => Ok key
       end;
     SignVRFData := fun key vrf =>
       match vrf with
       | Some (mkVRFData [] _) => Err (foreign_error "sigs" "empty vrf proof")
       | _ => Ok key
       end;
     RecoverPubKeyFromRelayReply := fun reply _ => Ok (reply_Sig reply);
     RecoverPubKeyFromResponseFinalizationData := fun reply _ _ =>
       Ok (SigBlocks reply) |}.

Definition toy_sdk : Sdk :=
  {| PubKey_Address_String := string_of_list_byte;
     AccAddressFromHex := fun s => Ok (list_byte_of_string s);
     AccAddressFromBech32 := fun s => Ok (list_byte_of_string s);
     AccAddress_String := string_of_list_byte |}.

Definition toy_reply (signer finalizer : string) : RelayReply :=
  {| reply_Data := list_byte_of_string "0x10";
     reply_Sig := list_byte_of_string signer;
     LatestBlock := 120;
     SigBlocks := list_byte_of_string finalizer |}.

Definition toy_Relay (_ : list Event) (endpoint : string) (_ : Context)
    (request : RelayRequest) : result RelayReply :=
  if (endpoint =? "honest")%string then
    Ok (toy_reply (Provider request) (Provider request))
  else if (endpoint =? "forger")%string then
    Ok (toy_reply "lava@mallory" "lava@mallory")
  else if (endpoint =? "replayer")%string then
    Ok (toy_reply (Provider request) "lava@mallory")
  else if (endpoint =? "slow")%string then
    Err context_DeadlineExceeded
  else
    Err (foreign_error "grpc" "connection refused").

Definition toy_RelaySubscribe (_ : list Event) (endpoint : string)
    (_ : Context) (_ : RelayRequest) : result SubscribeClient :=
  if (endpoint =? "honest")%string then Ok 7%N
  else if (endpoint =? "slow")%string then Err context_DeadlineExceeded
  else Err (foreign_error "grpc" "connection refused").

Definition toy_UpdateRequestedBlock (request : RelayRequest)
    (reply : RelayReply) : RelayRequest :=
  if RequestBlock request =? LATEST_BLOCK
  then set_RequestBlock request (LatestBlock reply)
  else request.

Definition toy_CalculateQoS (cs : SingleConsumerSession)
    (cu latency blockHeightDiff numOfProviders servicersToCount : Z)
  : SingleConsumerSession :=
  set_QoSInfo cs
    {| LastQoSReport := Some (mkQoSReport "1" "1" "1");
       TotalRelays := TotalRelays (QoSInfo_ cs);
       AnsweredRelays := AnsweredRelays (QoSInfo_ cs);
       ConsecutiveTimeOut := ConsecutiveTimeOut (QoSInfo_ cs) |}.

Definition toy_world : World :=
  {| sigs := toy_sigs; sdk := toy_sdk;
     Relay := toy_Relay; RelaySubscribe := toy_RelaySubscribe;
     time_Now := fun tr => 1000 * Z.of_nat (length tr);
     time_Since := fun tr t => 1000 * Z.of_nat (length tr) - t;
     UpdateRequestedBlock := toy_UpdateRequestedBlock;
     CalculateQoS := toy_CalculateQoS |}.

(** An orchestrator that calls the primary closure once and hands its reply,
    stream and error on unchanged. *)
Definition relay_once (_ : Context) (_ : SingleConsumerSession)
    (reportedProviders : bytes) (_ : Z) (_ : string) (_ : SpecCategory)
  : Orchestration :=
  orch_send_relay reportedProviders
    (fun '(reply, replyServer, _, err) => orch_return (reply, replyServer, err)).

Definition toy_sentry (comparesHashes : bool) : Sentry :=
  {| ApiInterface := "jsonrpc";
     sentry_ChainID := "LAV1";
     GetSpecComparesHashes := comparesHashes;
     ExpectedBlockHeight := fun _ => (121, 3);
     GetProvidersCount := 5;
     sentry_SendRelay := relay_once |}.

Definition toy_session (endpoint : string) (q : QoSInfo)
  : SingleConsumerSession :=
  {| session_CuSum := 10; session_RelayNum := 1; session_SessionId := 42;
     QoSInfo_ := q; Client_Acc := "lava@provider"; Endpoint := endpoint |}.

Definition fresh_QoSInfo : QoSInfo :=
  {| LastQoSReport := None; TotalRelays := 0; AnsweredRelays := 0;
     ConsecutiveTimeOut := 0 |}.

Definition toy_manager (endpoint : string) : ConsumerSessionManager :=
  {| GetSession := fun _ _ =>
       Ok (toy_session endpoint fresh_QoSInfo, 20, "lava@provider", []) |}.

(** Requests to the url "ws" are subscriptions; all ask for the latest
    block. *)
Definition toy_ParseMsg (url : string) (_ : bytes) (_ : string)
  : result NodeMessage :=
  Ok {| GetServiceApi :=
          {| ComputeUnits := 10;
             Category := {| Deterministic := true;
                            Subscription := (url =? "ws")%string |} |};
        RequestedBlock := LATEST_BLOCK |}.

Definition toy_proxy (endpoint : string) (comparesHashes : bool) : ChainProxy :=
  {| ParseMsg := toy_ParseMsg;
     GetSentry := toy_sentry comparesHashes;
     GetConsumerSessionManager := toy_manager endpoint |}.

Definition toy_key : PrivateKey := list_byte_of_string "k".

Definition toy_closure (endpoint : string) (subscription : bool)
    (key : PrivateKey) : Closure :=
  {| ctx := context_Background;
     cp := toy_proxy endpoint false;
     privKey := key;
     url := if subscription then "ws" else "/block";
     req := "eth_blockNumber";
     connectionType := "POST";
     nodeMsg :=
       {| GetServiceApi :=
            {| ComputeUnits := 10;
               Category := {| Deterministic := true;
                              Subscription := subscription |} |};
          RequestedBlock := LATEST_BLOCK |};
     isSubscription := subscription;
     epoch := 20;
     providerPublicAddress := "lava@provider" |}.

Definition toy_state (endpoint : string) (q : QoSInfo) : RelayState :=
  initial_state (toy_session endpoint q) [].

Definition unary_to (endpoint : string) : Closure :=
  toy_closure endpoint false toy_key.

Definition fresh_at (endpoint : string) : RelayState :=
  toy_state endpoint fresh_QoSInfo.

(** The state the primary closure leaves at a provider. *)
Definition relayed_at (endpoint : string) : RelayState :=
  fst (callback_send_relay toy_world (unary_to endpoint) [] (fresh_at endpoint)).

Definition toy_vrf (material : string) : VRFData :=
  {| vrf_material := list_byte_of_string material; vrf_Sig := [] |}.

(** A session whose TotalRelays counter is at the largest uint64. *)
Definition saturated_QoSInfo : QoSInfo :=
  {| LastQoSReport := None; TotalRelays := max_uint64; AnsweredRelays := 1;
     ConsecutiveTimeOut := 0 |}.

(** In this network a signature is the signer's key and the address of a
    key is its text: the consumer that signs with [toy_key] has this
    address. *)
Definition toy_consumer_address : string :=
  PubKey_Address_String toy_sdk toy_key.

(** ** Orchestrations and inputs for the further properties *)

(** An orchestrator that calls the primary closure [n] times in a row,
    whatever each call returns, and then gives up. *)
Fixpoint retry_relay (n : nat) (unresponsiveProviders : bytes)
  : Orchestration :=
  match n with
  | O => orch_return (None, None, None)
  | S n =>
    orch_send_relay unresponsiveProviders
      (fun _ => retry_relay n unresponsiveProviders)
  end.

Definition with_epoch (cl : Closure) (e : Z) : Closure :=
  {| ctx := ctx cl; cp := cp cl; privKey := privKey cl; url := url cl;
     req := req cl; connectionType := connectionType cl;
     nodeMsg := nodeMsg cl; isSubscription := isSubscription cl;
     epoch := e; providerPublicAddress := providerPublicAddress cl |}.

(** A proxy whose parser rejects every request, and one whose session
    manager has no session to lease. *)
Definition unparsable : error := foreign_error "parser" "invalid json".

Definition no_pairing : error :=
  foreign_error "lavasession" "no pairings available".

Definition deaf_proxy : ChainProxy :=
  {| ParseMsg := fun _ _ _ => Err unparsable;
     GetSentry := toy_sentry false;
     GetConsumerSessionManager := toy_manager "honest" |}.

Definition empty_proxy : ChainProxy :=
  {| ParseMsg := toy_ParseMsg;
     GetSentry := toy_sentry false;
     GetConsumerSessionManager := {| GetSession := fun _ _ => Err no_pairing |}
  |}.

(** * Properties *)

(** ** Integers *)

Lemma uint64_small (x : Z) : 0 <= x <= max_uint64 -> uint64 x = x.
Proof.
  unfold uint64, max_uint64. intros H. apply Z.mod_small. lia.
Qed.

Lemma incr_uint64_below_max (x : Z) :
  0 <= x < max_uint64 -> incr_uint64 x = x + 1.
Proof.
  unfold incr_uint64. intros H. apply uint64_small. lia.
Qed.

Lemma incr_uint64_at_max : incr_uint64 max_uint64 = 0.
Proof. reflexivity. Qed.

Lemma incr_uint64_changes (x : Z) : incr_uint64 x <> x.
Proof.
  unfold incr_uint64, uint64. intros H.
  assert (B : 0 <= (x + 1) mod 2 ^ 64 < 2 ^ 64) by (apply Z.mod_pos_bound; lia).
  rewrite H in B.
  destruct (Z.eq_dec x (2 ^ 64 - 1)) as [E | N].
  - subst x. vm_compute in H. discriminate.
  - rewrite Z.mod_small in H by lia. lia.
Qed.

Lemma int64_minus_one_negative : int64 (-1) < 0.
Proof. reflexivity. Qed.

(** ** The factory *)

(** C8. [GetChainProxy] returns a proxy together with a nil error exactly
    when the sentry's ApiInterface is "jsonrpc", "tendermintrpc" or "rest";
    for every other selector it returns a nil proxy together with the error
    whose text names the selector. *)
Theorem GetChainProxy_supported_exactly
    (NewJrpc NewTendermint : string -> Z -> Sentry -> ConsumerSessionManager ->
                             ChainProxy)
    (NewRest : string -> Sentry -> ConsumerSessionManager -> ChainProxy)
    (zero : ConsumerSessionManager)
    (nodeUrl : string) (nConns : Z) (sentry : Sentry) :
  let got :=
    GetChainProxy NewJrpc NewTendermint NewRest zero nodeUrl nConns sentry in
  ((exists proxy, got = (Some proxy, None))
   <-> supported_interface (ApiInterface sentry))
  /\ (got = (None, Some (interface_not_found (ApiInterface sentry)))
      <-> ~ supported_interface (ApiInterface sentry)).
Proof.
  unfold GetChainProxy, supported_interface, interface_not_found.
  destruct (String.eqb_spec (ApiInterface sentry) "jsonrpc") as [Ej | Nj].
  { split; split; intros H; eauto; try discriminate. tauto. }
  destruct (String.eqb_spec (ApiInterface sentry) "tendermintrpc") as [Et | Nt].
  { split; split; intros H; eauto; try discriminate. tauto. }
  destruct (String.eqb_spec (ApiInterface sentry) "rest") as [Er | Nr].
  { split; split; intros H; eauto; try discriminate. tauto. }
  split; split; intros H.
  - destruct H as [proxy H]. discriminate.
  - tauto.
  - tauto.
  - reflexivity.
Qed.

(** ** The reply authenticator *)

(** C3, as amended.  With [comparesHashes] set, and the primary signature
    check passed, [VerifyRelayReply] recovers a second key from the
    finalization data of the reply, bound to the address it was given in
    [addr].  That address is the one the primary check has just found to be
    the reply signer's, the expected provider (the closures pass the
    session's [Client.Acc]); the function is given no address of the
    consumer.  Whenever the address of the second key differs from [addr]
    as decoded, it fails with the sigblocks mismatch error. *)
Theorem VerifyRelayReply_cross_validation
    (sigs : Sigs) (sdk : Sdk) (reply : RelayReply) (relayRequest : RelayRequest)
    (addr : string) (strAdd : AccAddress) (serverKey : PubKey)
    (serverAddr : AccAddress) :
  VerifyRelayReply sigs sdk reply relayRequest addr false = None ->
  AccAddressFromBech32 sdk addr = Ok strAdd ->
  RecoverPubKeyFromResponseFinalizationData sigs reply relayRequest strAdd
    = Ok serverKey ->
  AccAddressFromHex sdk (PubKey_Address_String sdk serverKey) = Ok serverAddr ->
  AccAddress_String sdk serverAddr <> AccAddress_String sdk strAdd ->
  (exists signerKey signerAddr,
      RecoverPubKeyFromRelayReply sigs reply relayRequest = Ok signerKey
      /\ AccAddressFromHex sdk (PubKey_Address_String sdk signerKey)
         = Ok signerAddr
      /\ AccAddress_String sdk signerAddr = addr)
  /\ VerifyRelayReply sigs sdk reply relayRequest addr true
     = Some (mismatch_in_sigblocks (AccAddress_String sdk serverAddr)
               (AccAddress_String sdk strAdd)).
Proof.
  unfold VerifyRelayReply. intros Hprimary Hbech Hrec Hhex Hneq.
  destruct (RecoverPubKeyFromRelayReply sigs reply relayRequest)
    as [key1 | e1] eqn:Hrec1; [ | discriminate ].
  destruct (AccAddressFromHex sdk (PubKey_Address_String sdk key1))
    as [addr1 | e2] eqn:Hhex1; [ | discriminate ].
  destruct (String.eqb_spec (AccAddress_String sdk addr1) addr) as [E | N];
    cbn [negb] in *; [ | discriminate ].
  split.
  - exists key1, addr1. split; [ reflexivity | ]. split; assumption.
  - rewrite Hbech, Hrec, Hhex.
    apply String.eqb_neq in Hneq. rewrite Hneq. reflexivity.
Qed.

Lemma VerifyRelayReply_cross_validation_witness :
  VerifyRelayReply toy_sigs toy_sdk (toy_reply "lava@provider" "lava@mallory")
    (primary_request (toy_closure "replayer" false toy_key) []
       (toy_state "replayer" fresh_QoSInfo))
    "lava@provider" true
  = Some (mismatch_in_sigblocks "lava@mallory" "lava@provider").
Proof.
  destruct (VerifyRelayReply_cross_validation toy_sigs toy_sdk
              (toy_reply "lava@provider" "lava@mallory")
              (primary_request (toy_closure "replayer" false toy_key) []
                 (toy_state "replayer" fresh_QoSInfo))
              "lava@provider"
              (list_byte_of_string "lava@provider")
              (list_byte_of_string "lava@mallory")
              (list_byte_of_string "lava@mallory")
              eq_refl eq_refl eq_refl eq_refl) as [_ Hfail].
  - vm_compute. discriminate.
  - exact Hfail.
Defined.

(** C3 as stated fails.  The consumer signs its requests with [toy_key], so
    its own address is "k"; the provider "lava@provider" answers honestly.
    The key recovered from the finalization data has the provider's
    address, which is not the consumer's, and [VerifyRelayReply] with
    [comparesHashes] set accepts the reply: the address it binds and
    compares with is the [addr] it was given, the provider's. *)
Lemma VerifyRelayReply_consumer_address_counterexample :
  toy_consumer_address = "k"
  /\ Sig (set_Sig (primary_request (unary_to "honest") []
                     (set_blockHeight 20 (fresh_at "honest"))) toy_key)
     = list_byte_of_string toy_consumer_address
  /\ Client_Acc (consumerSession (fresh_at "honest")) = "lava@provider"
  /\ Provider (primary_request (unary_to "honest") []
                 (set_blockHeight 20 (fresh_at "honest"))) = "lava@provider"
  /\ RecoverPubKeyFromResponseFinalizationData toy_sigs
       (toy_reply "lava@provider" "lava@provider")
       (primary_request (unary_to "honest") []
          (set_blockHeight 20 (fresh_at "honest")))
       (list_byte_of_string "lava@provider")
     = Ok (list_byte_of_string "lava@provider")
  /\ AccAddressFromHex toy_sdk
       (PubKey_Address_String toy_sdk (list_byte_of_string "lava@provider"))
     = Ok (list_byte_of_string "lava@provider")
  /\ AccAddress_String toy_sdk (list_byte_of_string "lava@provider")
     <> toy_consumer_address
  /\ VerifyRelayReply toy_sigs toy_sdk
       (toy_reply "lava@provider" "lava@provider")
       (primary_request (unary_to "honest") []
          (set_blockHeight 20 (fresh_at "honest")))
       (Client_Acc (consumerSession (fresh_at "honest"))) true
     = None.
Proof.
  repeat split; try (vm_compute; reflexivity).
  vm_compute. discriminate.
Qed.

(** ** The closures *)

Ltac simpl_state :=
  cbn [trace consumerSession blockHeight requestedBlock emit set_blockHeight
       set_requestedBlock set_consumerSession update_QoSInfo TotalRelays_incr
       AnsweredRelays_incr ConsecutiveTimeOut_incr ConsecutiveTimeOut_reset
       set_QoSInfo set_TotalRelays set_AnsweredRelays set_ConsecutiveTimeOut
       QoSInfo_ TotalRelays AnsweredRelays ConsecutiveTimeOut LastQoSReport
       Endpoint Client_Acc session_CuSum session_RelayNum session_SessionId
       DataReliability set_Sig set_DataReliability reliability_request
       fst snd] in *.

Lemma sends_app (tr evs : list Event) : sends (tr ++ evs) = sends tr ++ sends evs.
Proof. apply filter_app. Qed.

Lemma releases_app (tr evs : list Event) :
  releases (tr ++ evs) = (releases tr + releases evs)%nat.
Proof. unfold releases. rewrite filter_app. apply length_app. Qed.

Section ClosureFacts.
Variable w : World.
Variable cl : Closure.

(** C9. Right after the lease [blockHeight] is -1; if the orchestrator
    calls the reliability closure in that state, the closure returns the
    error "expected callback_send_relay to be called first ..." and leaves
    the state as it was: the trace gains no event, so no request was
    built, signed or sent, and the orchestrator goes on from there. *)
Theorem reliability_before_relay_is_refused
    (session : SingleConsumerSession) (tr : list Event)
    (dataReliability : option VRFData) (unresponsiveProviders : bytes)
    (k : ReliabilityCallbackResult -> Orchestration) :
  blockHeight (initial_state session tr) = -1
  /\ callback_send_reliability w cl dataReliability unresponsiveProviders
       (initial_state session tr)
     = (initial_state session tr,
        Returned (None, None, Some called_too_early))
  /\ run_orchestration w cl
       (orch_send_reliability dataReliability unresponsiveProviders k)
       (initial_state session tr)
     = run_orchestration w cl (k (None, None, Some called_too_early))
         (initial_state session tr).
Proof.
  split; [ reflexivity | ].
  assert (E : callback_send_reliability w cl dataReliability
                unresponsiveProviders (initial_state session tr)
              = (initial_state session tr,
                 Returned (None, None, Some called_too_early))).
  { reflexivity. }
  split; [ exact E | ].
  cbn [run_orchestration]. rewrite E. reflexivity.
Qed.

(** C6. If [SignRelay] fails on the primary request, the primary closure
    returns that error and the trace has no new transport send.  If
    [SignRelay] fails on the reliability request, or [SignVRFData] fails
    on its VRF data, the reliability closure returns that error and the
    trace has no new transport send. *)
Theorem signing_failure_sends_nothing
    (dataReliability : option VRFData) (unresponsiveProviders : bytes)
    (s : RelayState) (err : error) :
  (SignRelay (sigs w) (privKey cl)
     (primary_request cl unresponsiveProviders
        (set_blockHeight (int64 (epoch cl)) s)) = Err err ->
   let '(s', res) := callback_send_relay w cl unresponsiveProviders s in
   res = (None, None, None, Some err)
   /\ sends (trace s') = sends (trace s))
  /\ (0 <= blockHeight s ->
      SignRelay (sigs w) (privKey cl)
        (reliability_request cl dataReliability unresponsiveProviders s)
        = Err err
      \/ (exists sig,
            SignRelay (sigs w) (privKey cl)
              (reliability_request cl dataReliability unresponsiveProviders s)
              = Ok sig)
         /\ SignVRFData (sigs w) (privKey cl) dataReliability = Err err ->
      let '(s', res) :=
        callback_send_reliability w cl dataReliability unresponsiveProviders s
      in
      res = Returned (None, None, Some err)
      /\ sends (trace s') = sends (trace s)).
Proof.
  split.
  - intros Hsign. unfold callback_send_relay. simpl_state.
    rewrite Hsign. simpl_state. split; [ reflexivity | ].
    rewrite sends_app. cbn. apply app_nil_r.
  - intros Hheight Hfail. unfold callback_send_reliability.
    apply Z.ltb_ge in Hheight. rewrite Hheight.
    destruct Hfail as [Hrelay | [[sig Hrelay] Hvrf]].
    + simpl_state. rewrite Hrelay. simpl_state. split; [ reflexivity | ].
      rewrite sends_app. cbn. apply app_nil_r.
    + simpl_state. rewrite Hrelay. simpl_state. rewrite Hvrf.
      simpl_state. split; [ reflexivity | ].
      rewrite !sends_app. cbn. rewrite !app_nil_r. reflexivity.
Qed.

(** C7. Once the primary request is signed, the primary closure makes
    exactly one transport send.  For a message that is not a subscription
    it is [Relay] under [context.WithTimeout(ctx, DefaultTimeout)], with
    DefaultTimeout equal to five seconds; for a subscription it is
    [RelaySubscribe] under the caller's own [ctx]. *)
Theorem primary_send_context (unresponsiveProviders : bytes) (s : RelayState)
    (sig : bytes) :
  let relayRequest :=
    primary_request cl unresponsiveProviders
      (set_blockHeight (int64 (epoch cl)) s) in
  SignRelay (sigs w) (privKey cl) relayRequest = Ok sig ->
  DefaultTimeout = 5 * 1000000000
  /\ sends (trace (fst (callback_send_relay w cl unresponsiveProviders s)))
     = sends (trace s)
       ++ [if isSubscription cl
           then EvRelaySubscribe (ctx cl) (set_Sig relayRequest sig)
           else EvRelay (context_WithTimeout (ctx cl) DefaultTimeout)
                  (set_Sig relayRequest sig)].
Proof.
  intros relayRequest Hsign. split; [ reflexivity | ].
  subst relayRequest. unfold callback_send_relay. simpl_state.
  rewrite Hsign. simpl_state.
  destruct (isSubscription cl).
  - destruct (RelaySubscribe w _ _ _ _) as [replyServer | err];
      unfold send_failed; simpl_state.
    + rewrite !sends_app. cbn. rewrite app_nil_r. reflexivity.
    + destruct (is_deadline_exceeded err); simpl_state;
        rewrite !sends_app; cbn; rewrite app_nil_r; reflexivity.
  - destruct (Relay w _ _ _ _) as [reply | err].
    + unfold relay_answered. simpl_state.
      destruct (VerifyRelayReply _ _ _ _ _ _); simpl_state.
      * rewrite !sends_app. cbn. rewrite app_nil_r. reflexivity.
      * destruct (ExpectedBlockHeight _ _) as [expectedBH numOfProviders].
        simpl_state. rewrite !sends_app. cbn. rewrite app_nil_r.
        reflexivity.
    + unfold send_failed.
      destruct (is_deadline_exceeded err); simpl_state;
        rewrite !sends_app; cbn; rewrite app_nil_r; reflexivity.
Qed.
End ClosureFacts.

(** ** The counters of the session *)

Lemma toy_scorer_keeps_counters : scorer_keeps_counters toy_world.
Proof. intros cs cu latency diff n m. cbn. auto. Qed.

Lemma is_deadline_exceeded_iff (err : error) :
  is_deadline_exceeded err = true <-> Error err = "context deadline exceeded".
Proof. unfold is_deadline_exceeded. cbn [Error]. apply String.eqb_eq. Qed.

Section CounterFacts.
Variable w : World.
Variable cl : Closure.
Hypothesis scorer : scorer_keeps_counters w.

(** The three counters after the primary closure, case by case. *)
Lemma counters_after_relay (unresponsiveProviders : bytes) (s : RelayState) :
  let relayRequest :=
    primary_request cl unresponsiveProviders
      (set_blockHeight (int64 (epoch cl)) s) in
  let history := trace s ++ [EvSignRelay relayRequest] in
  let c := Endpoint (consumerSession s) in
  let s' := fst (callback_send_relay w cl unresponsiveProviders s) in
  match SignRelay (sigs w) (privKey cl) relayRequest with
  | Err _ =>
    total s' = total s /\ answered s' = answered s
    /\ timeouts s' = timeouts s
  | Ok sig =>
    total s' = incr_uint64 (total s)
    /\ if isSubscription cl then
         answered s' = answered s
         /\ match RelaySubscribe w history c (ctx cl)
                    (set_Sig relayRequest sig) with
            | Ok _ => timeouts s' = timeouts s
            | Err err =>
              timeouts s' = if is_deadline_exceeded err
                            then incr_uint64 (timeouts s) else timeouts s
            end
       else
         match Relay w history c
                 (context_WithTimeout (ctx cl) DefaultTimeout)
                 (set_Sig relayRequest sig) with
         | Ok _ =>
           answered s' = incr_uint64 (answered s) /\ timeouts s' = 0
         | Err err =>
           answered s' = answered s
           /\ timeouts s' = if is_deadline_exceeded err
                            then incr_uint64 (timeouts s) else timeouts s
         end
  end.
Proof.
  intros relayRequest history c s'. subst relayRequest history c s'.
  unfold callback_send_relay, total, answered, timeouts. simpl_state.
  destruct (SignRelay _ _ _) as [sig | e]; simpl_state; [ | auto ].
  destruct (isSubscription cl).
  - destruct (RelaySubscribe w _ _ _ _) as [replyServer | err];
      unfold send_failed; simpl_state; [ auto | ].
    destruct (is_deadline_exceeded err); simpl_state; auto.
  - destruct (Relay w _ _ _ _) as [reply | err].
    + unfold relay_answered. simpl_state.
      destruct (VerifyRelayReply _ _ _ _ _ _); simpl_state; [ auto | ].
      destruct (ExpectedBlockHeight _ _) as [expectedBH numOfProviders].
      simpl_state.
      match goal with
      | |- context [CalculateQoS w ?cs ?a ?b ?c ?d ?e] =>
        destruct (scorer cs a b c d e) as (Ht & Ha & Hc)
      end.
      simpl_state. rewrite Ht, Ha, Hc. auto.
    + unfold send_failed.
      destruct (is_deadline_exceeded err); simpl_state; auto.
Qed.
End CounterFacts.

Section CounterClaims.
Variable w : World.
Variable cl : Closure.

(** C5. After the primary closure, ConsecutiveTimeOut is zero if the unary
    [Relay] was answered (whether or not the reply then verifies); it is
    one more than before if the transport send, unary or subscription,
    failed with an error whose [Error()] text is that of
    [context.DeadlineExceeded], which is the test the closure makes; in
    every other case (signing failed, any other transport error, a
    subscription opened) it is what it was. *)
Theorem consecutive_timeouts_after_relay
    (unresponsiveProviders : bytes) (s : RelayState) :
  scorer_keeps_counters w ->
  let relayRequest :=
    primary_request cl unresponsiveProviders
      (set_blockHeight (int64 (epoch cl)) s) in
  let history := trace s ++ [EvSignRelay relayRequest] in
  let c := Endpoint (consumerSession s) in
  let s' := fst (callback_send_relay w cl unresponsiveProviders s) in
  match SignRelay (sigs w) (privKey cl) relayRequest with
  | Err _ => timeouts s' = timeouts s
  | Ok sig =>
    if isSubscription cl then
      match RelaySubscribe w history c (ctx cl) (set_Sig relayRequest sig)
      with
      | Ok _ => timeouts s' = timeouts s
      | Err err =>
        timeouts s' = if (Error err =? "context deadline exceeded")%string
                      then incr_uint64 (timeouts s) else timeouts s
      end
    else
      match Relay w history c (context_WithTimeout (ctx cl) DefaultTimeout)
              (set_Sig relayRequest sig) with
      | Ok _ => timeouts s' = 0
      | Err err =>
        timeouts s' = if (Error err =? "context deadline exceeded")%string
                      then incr_uint64 (timeouts s) else timeouts s
      end
  end.
Proof.
  intros scorer relayRequest history c s'.
  pose proof (counters_after_relay w cl scorer unresponsiveProviders s) as H.
  cbv zeta in H. fold relayRequest history c s' in H.
  change (fst (callback_send_relay w cl unresponsiveProviders s)) with s'
    in H.
  destruct (SignRelay _ _ _) as [sig | e]; [ | tauto ].
  destruct H as [_ H]. destruct (isSubscription cl).
  - destruct H as [_ H].
    destruct (RelaySubscribe w _ _ _ _); exact H.
  - destruct (Relay w _ _ _ _); destruct H as [_ H]; exact H.
Qed.

(** C10, as amended.  If AnsweredRelays is at most TotalRelays before the
    primary closure and TotalRelays is below the largest uint64, then
    AnsweredRelays is at most TotalRelays after it.  TotalRelays grows by
    one on every attempt that gets past signing, also when the send then
    fails; AnsweredRelays grows by one only when the unary [Relay] was
    answered. *)
Theorem relay_counters_stay_ordered
    (unresponsiveProviders : bytes) (s : RelayState) :
  scorer_keeps_counters w ->
  0 <= answered s <= total s ->
  total s < max_uint64 ->
  let relayRequest :=
    primary_request cl unresponsiveProviders
      (set_blockHeight (int64 (epoch cl)) s) in
  let history := trace s ++ [EvSignRelay relayRequest] in
  let c := Endpoint (consumerSession s) in
  let s' := fst (callback_send_relay w cl unresponsiveProviders s) in
  answered s' <= total s'
  /\ match SignRelay (sigs w) (privKey cl) relayRequest with
     | Err _ => total s' = total s /\ answered s' = answered s
     | Ok sig =>
       total s' = total s + 1
       /\ answered s'
          = if isSubscription cl then answered s
            else match Relay w history c
                         (context_WithTimeout (ctx cl) DefaultTimeout)
                         (set_Sig relayRequest sig) with
                 | Ok _ => answered s + 1
                 | Err _ => answered s
                 end
     end.
Proof.
  intros scorer Hord Hmax relayRequest history c s'.
  pose proof (counters_after_relay w cl scorer unresponsiveProviders s) as H.
  cbv zeta in H. fold relayRequest history c s' in H.
  change (fst (callback_send_relay w cl unresponsiveProviders s)) with s'
    in H.
  assert (Ht : incr_uint64 (total s) = total s + 1)
    by (apply incr_uint64_below_max; lia).
  assert (Ha : incr_uint64 (answered s) = answered s + 1)
    by (apply incr_uint64_below_max; lia).
  destruct (SignRelay _ _ _) as [sig | e].
  - destruct H as [Htot H]. rewrite Ht in Htot.
    destruct (isSubscription cl).
    + destruct H as [Hans _]. rewrite Htot, Hans. repeat split; lia.
    + destruct (Relay w _ _ _ _); destruct H as [Hans _];
        rewrite Htot, Hans, ?Ha; repeat split; lia.
  - destruct H as (Htot & Hans & _). rewrite Htot, Hans.
    repeat split; lia.
Qed.

(** C2, as amended.  When the reply to a unary primary relay fails
    verification, the primary closure returns the verification error and a
    nil reply, so the reply is not handed on; AnsweredRelays has by then
    been incremented, the increment coming before the verification. *)
Theorem verification_failure_counts_as_answered
    (unresponsiveProviders : bytes) (s : RelayState) (sig : bytes)
    (reply : RelayReply) (err : error) :
  let relayRequest :=
    primary_request cl unresponsiveProviders
      (set_blockHeight (int64 (epoch cl)) s) in
  isSubscription cl = false ->
  SignRelay (sigs w) (privKey cl) relayRequest = Ok sig ->
  Relay w (trace s ++ [EvSignRelay relayRequest])
    (Endpoint (consumerSession s))
    (context_WithTimeout (ctx cl) DefaultTimeout)
    (set_Sig relayRequest sig) = Ok reply ->
  VerifyRelayReply (sigs w) (sdk w) reply
    (UpdateRequestedBlock w (set_Sig relayRequest sig) reply)
    (Client_Acc (consumerSession s))
    (GetSpecComparesHashes (GetSentry (cp cl))) = Some err ->
  let '(s', res) := callback_send_relay w cl unresponsiveProviders s in
  res = (None, None, None, Some err)
  /\ answered s' = incr_uint64 (answered s)
  /\ answered s' <> answered s.
Proof.
  intros relayRequest Hunary Hsign Hrelay Hverify. subst relayRequest.
  unfold callback_send_relay, answered. simpl_state.
  rewrite Hsign, Hunary. simpl_state. rewrite Hrelay.
  unfold relay_answered. simpl_state. rewrite Hverify. simpl_state.
  split; [ reflexivity | ]. split; [ reflexivity | ].
  apply incr_uint64_changes.
Qed.
End CounterClaims.

(** ** The reliability follow-up *)

Lemma skipn_past (A : Type) (l evs : list A) : skipn (length l) (l ++ evs) = evs.
Proof.
  induction l as [ | a l IH ]; cbn; [ reflexivity | exact IH ].
Qed.

Section ReliabilityFacts.
Variable w : World.
Variable cl : Closure.

(** After an answered unary relay the captured [requestedBlock] holds the
    block the request was updated to. *)
Lemma requestedBlock_after_answer (unresponsiveProviders : bytes)
    (s : RelayState) (sig : bytes) (reply : RelayReply) :
  let relayRequest :=
    primary_request cl unresponsiveProviders
      (set_blockHeight (int64 (epoch cl)) s) in
  isSubscription cl = false ->
  SignRelay (sigs w) (privKey cl) relayRequest = Ok sig ->
  Relay w (trace s ++ [EvSignRelay relayRequest])
    (Endpoint (consumerSession s))
    (context_WithTimeout (ctx cl) DefaultTimeout)
    (set_Sig relayRequest sig) = Ok reply ->
  requestedBlock (fst (callback_send_relay w cl unresponsiveProviders s))
  = RequestBlock (UpdateRequestedBlock w (set_Sig relayRequest sig) reply).
Proof.
  intros relayRequest Hunary Hsign Hrelay. subst relayRequest.
  unfold callback_send_relay. simpl_state.
  rewrite Hsign, Hunary. simpl_state. rewrite Hrelay.
  unfold relay_answered. simpl_state.
  destruct (VerifyRelayReply _ _ _ _ _ _); simpl_state; [ reflexivity | ].
  destruct (ExpectedBlockHeight _ _) as [expectedBH numOfProviders].
  reflexivity.
Qed.

(** Whatever the reliability closure sends or returns is the request
    literal it built, with the signatures filled in. *)
Lemma reliability_closure_requests (dataReliability : option VRFData)
    (unresponsiveProviders : bytes) (s : RelayState) :
  let built :=
    reliability_request cl dataReliability unresponsiveProviders s in
  let '(s', out) :=
    callback_send_reliability w cl dataReliability unresponsiveProviders s in
  (forall c rq,
      In (EvRelay c rq) (skipn (length (trace s)) (trace s')) ->
      SessionId rq = SessionId built /\ RequestBlock rq = RequestBlock built)
  /\ (forall reply rq e,
         out = Returned (reply, Some rq, e) ->
         SessionId rq = SessionId built
         /\ RequestBlock rq = RequestBlock built).
Proof.
  unfold callback_send_reliability.
  destruct (blockHeight s <? 0).
  { rewrite skipn_all.
    split; [ intros c rq [] | intros reply rq e H; discriminate ]. }
  simpl_state.
  destruct (SignRelay _ _ _) as [sig | e1]; simpl_state.
  2:{ rewrite skipn_past. split.
      - intros c rq [H | []]. discriminate.
      - intros reply rq e H. discriminate. }
  destruct (SignVRFData _ _ _) as [sig' | e2]; simpl_state.
  2:{ rewrite <- app_assoc, skipn_past. split.
      - intros c rq [H | [H | []]]; discriminate.
      - intros reply rq e H. discriminate. }
  destruct dataReliability as [vrf | ]; simpl_state.
  2:{ rewrite <- app_assoc, skipn_past. split.
      - intros c rq [H | [H | []]]; discriminate.
      - intros reply rq e H. discriminate. }
  assert (Hsent : forall c rq,
             In (EvRelay c rq)
               (skipn (length (trace s))
                  (((trace s ++
                     [EvSignRelay
                        (reliability_request cl (Some vrf)
                           unresponsiveProviders s)]) ++
                    [EvSignVRFData (Some vrf)]) ++
                   [EvRelay (ctx cl)
                      (set_DataReliability
                         (set_Sig
                            (reliability_request cl (Some vrf)
                               unresponsiveProviders s) sig)
                         (Some (set_vrf_Sig vrf sig')))])) ->
             SessionId rq = uint64 0 /\ RequestBlock rq = requestedBlock s).
  { intros c rq. rewrite <- !app_assoc, skipn_past.
    intros [H | [H | [H | []]]]; try discriminate.
    injection H as _ Hrq. subst rq. split; reflexivity. }
  destruct (Relay w _ _ _ _) as [reply | e3]; simpl_state.
  2:{ split; [ exact Hsent | intros reply rq e H; discriminate ]. }
  destruct (VerifyRelayReply _ _ _ _ _ _) as [e4 | ]; simpl_state.
  { split; [ exact Hsent | intros reply' rq e H; discriminate ]. }
  split; [ exact Hsent | ].
  intros reply' rq e H. injection H as _ Hrq _. subst rq.
  split; reflexivity.
Qed.

(** The primary closure leaves [blockHeight] at [int64(epoch)]. *)
Lemma primary_sets_blockHeight (unresponsiveProviders : bytes)
    (s : RelayState) :
  blockHeight (fst (callback_send_relay w cl unresponsiveProviders s))
  = int64 (epoch cl).
Proof.
  unfold callback_send_relay. simpl_state.
  destruct (SignRelay _ _ _) as [sig | e]; simpl_state; [ | reflexivity ].
  destruct (isSubscription cl).
  - destruct (RelaySubscribe w _ _ _ _) as [stream | err];
      unfold send_failed; simpl_state; [ reflexivity | ].
    destruct (is_deadline_exceeded err); reflexivity.
  - destruct (Relay w _ _ _ _) as [reply | err].
    + unfold relay_answered. simpl_state.
      destruct (VerifyRelayReply _ _ _ _ _ _); simpl_state; [ reflexivity | ].
      destruct (ExpectedBlockHeight _ _) as [expectedBH numOfProviders].
      reflexivity.
    + unfold send_failed. destruct (is_deadline_exceeded err); reflexivity.
Qed.

(** Past its guard the reliability closure has the request literal signed,
    and with both signatures it sends exactly that literal, signatures
    filled in, and nothing else. *)
Lemma reliability_past_guard (dataReliability : option VRFData)
    (unresponsiveProviders : bytes) (s : RelayState) :
  0 <= blockHeight s ->
  let built :=
    reliability_request cl dataReliability unresponsiveProviders s in
  let s' :=
    fst (callback_send_reliability w cl dataReliability unresponsiveProviders s)
  in
  (exists evs, trace s' = trace s ++ EvSignRelay built :: evs)
  /\ forall vrf sig sig',
       dataReliability = Some vrf ->
       SignRelay (sigs w) (privKey cl) built = Ok sig ->
       SignVRFData (sigs w) (privKey cl) (Some vrf) = Ok sig' ->
       sends (trace s')
       = sends (trace s)
         ++ [EvRelay (ctx cl)
               (set_DataReliability (set_Sig built sig)
                  (Some (set_vrf_Sig vrf sig')))].
Proof.
  intros Hheight built s'. subst built s'.
  unfold callback_send_reliability.
  apply Z.ltb_ge in Hheight. rewrite Hheight. split.
  - simpl_state.
    destruct (SignRelay _ _ _) as [sig | e1]; simpl_state; [ | eauto ].
    destruct (SignVRFData _ _ _) as [sig' | e2]; simpl_state.
    2:{ rewrite <- app_assoc. cbn. eauto. }
    destruct dataReliability as [vrf | ]; simpl_state.
    2:{ rewrite <- app_assoc. cbn. eauto. }
    destruct (Relay w _ _ _ _) as [reply | e3]; simpl_state.
    2:{ rewrite <- !app_assoc. cbn. eauto. }
    destruct (VerifyRelayReply _ _ _ _ _ _) as [e4 | ]; simpl_state;
      rewrite <- !app_assoc; cbn; eauto.
  - intros vrf sig sig' Hdata Hsign Hvrf. subst dataReliability.
    simpl_state. rewrite Hsign. simpl_state. rewrite Hvrf. simpl_state.
    destruct (Relay w _ _ _ _) as [reply | e3]; simpl_state.
    2:{ rewrite !sends_app. cbn. rewrite !app_nil_r. reflexivity. }
    destruct (VerifyRelayReply _ _ _ _ _ _) as [e4 | ]; simpl_state;
      rewrite !sends_app; cbn; rewrite !app_nil_r; reflexivity.
Qed.

(** C4. Past its guard the reliability closure builds one request, has it
    signed, and with both signatures sends exactly that request and no
    other.  That request has SessionId 0, in every state, and so has every
    request the closure sends or returns.  When the closure runs on the
    state the primary closure left after an answered unary relay, the
    RequestBlock of that request is the RequestBlock of the primary request
    as [UpdateRequestedBlock] rewrote it from the reply, and the request the
    closure signs, sends and returns carries that block. *)
Theorem reliability_request_pins_resolved_block
    (unresponsiveProviders : bytes) (s : RelayState) (sig : bytes)
    (reply : RelayReply) (dataReliability : option VRFData)
    (unresponsiveProviders' : bytes) :
  (forall s0 : RelayState,
      SessionId
        (reliability_request cl dataReliability unresponsiveProviders' s0) = 0
      /\ let '(s2, out) :=
           callback_send_reliability w cl dataReliability
             unresponsiveProviders' s0 in
         (forall c rq,
             In (EvRelay c rq) (skipn (length (trace s0)) (trace s2)) ->
             SessionId rq = 0)
         /\ (forall reply' rq e,
                out = Returned (reply', Some rq, e) -> SessionId rq = 0))
  /\ (let relayRequest :=
        primary_request cl unresponsiveProviders
          (set_blockHeight (int64 (epoch cl)) s) in
      isSubscription cl = false ->
      SignRelay (sigs w) (privKey cl) relayRequest = Ok sig ->
      Relay w (trace s ++ [EvSignRelay relayRequest])
        (Endpoint (consumerSession s))
        (context_WithTimeout (ctx cl) DefaultTimeout)
        (set_Sig relayRequest sig) = Ok reply ->
      let resolved :=
        RequestBlock (UpdateRequestedBlock w (set_Sig relayRequest sig) reply)
      in
      let s1 := fst (callback_send_relay w cl unresponsiveProviders s) in
      RequestBlock
        (reliability_request cl dataReliability unresponsiveProviders' s1)
      = resolved
      /\ let '(s2, out) :=
           callback_send_reliability w cl dataReliability
             unresponsiveProviders' s1 in
         (forall c rq,
             In (EvRelay c rq) (skipn (length (trace s1)) (trace s2)) ->
             RequestBlock rq = resolved)
         /\ (forall reply' rq e,
                out = Returned (reply', Some rq, e) ->
                RequestBlock rq = resolved))
  /\ (let relayRequest :=
        primary_request cl unresponsiveProviders
          (set_blockHeight (int64 (epoch cl)) s) in
      isSubscription cl = false ->
      SignRelay (sigs w) (privKey cl) relayRequest = Ok sig ->
      Relay w (trace s ++ [EvSignRelay relayRequest])
        (Endpoint (consumerSession s))
        (context_WithTimeout (ctx cl) DefaultTimeout)
        (set_Sig relayRequest sig) = Ok reply ->
      0 <= int64 (epoch cl) ->
      let resolved :=
        RequestBlock (UpdateRequestedBlock w (set_Sig relayRequest sig) reply)
      in
      let s1 := fst (callback_send_relay w cl unresponsiveProviders s) in
      let built :=
        reliability_request cl dataReliability unresponsiveProviders' s1 in
      let s2 :=
        fst (callback_send_reliability w cl dataReliability
               unresponsiveProviders' s1) in
      (exists evs, trace s2 = trace s1 ++ EvSignRelay built :: evs)
      /\ forall vrf sig1 sig2,
           dataReliability = Some vrf ->
           SignRelay (sigs w) (privKey cl) built = Ok sig1 ->
           SignVRFData (sigs w) (privKey cl) (Some vrf) = Ok sig2 ->
           let sent :=
             set_DataReliability (set_Sig built sig1)
               (Some (set_vrf_Sig vrf sig2)) in
           sends (trace s2) = sends (trace s1) ++ [EvRelay (ctx cl) sent]
           /\ SessionId sent = 0
           /\ RequestBlock sent = resolved).
Proof.
  split; [ | split ].
  - intros s0. split; [ reflexivity | ].
    pose proof (reliability_closure_requests dataReliability
                  unresponsiveProviders' s0) as H.
    cbv zeta in H.
    destruct (callback_send_reliability w cl dataReliability
                unresponsiveProviders' s0) as [s2 out].
    destruct H as [Hsent Hret]. split.
    + intros c rq Hin. exact (proj1 (Hsent c rq Hin)).
    + intros reply' rq e Hout. exact (proj1 (Hret reply' rq e Hout)).
  - intros relayRequest Hunary Hsign Hrelay resolved s1.
    assert (Hblock : RequestBlock
                       (reliability_request cl dataReliability
                          unresponsiveProviders' s1) = resolved).
    { subst resolved s1 relayRequest. cbn [reliability_request RequestBlock].
      apply requestedBlock_after_answer; assumption. }
    split; [ exact Hblock | ].
    pose proof (reliability_closure_requests dataReliability
                  unresponsiveProviders' s1) as H.
    cbv zeta in H.
    destruct (callback_send_reliability w cl dataReliability
                unresponsiveProviders' s1) as [s2 out].
    rewrite Hblock in H. destruct H as [Hsent Hret]. split.
    + intros c rq Hin. exact (proj2 (Hsent c rq Hin)).
    + intros reply' rq e Hout. exact (proj2 (Hret reply' rq e Hout)).
  - intros relayRequest Hunary Hsign Hrelay Hepoch resolved s1 built s2.
    assert (Hblock : RequestBlock built = resolved).
    { subst built resolved s1 relayRequest.
      cbn [reliability_request RequestBlock].
      apply requestedBlock_after_answer; assumption. }
    assert (Hheight : 0 <= blockHeight s1).
    { subst s1. rewrite primary_sets_blockHeight. exact Hepoch. }
    destruct (reliability_past_guard dataReliability unresponsiveProviders'
                s1 Hheight) as [Hsigned Hsent].
    split; [ exact Hsigned | ].
    intros vrf sig1 sig2 Hdata Hsign1 Hsign2 sent.
    split; [ exact (Hsent vrf sig1 sig2 Hdata Hsign1 Hsign2) | ].
    split; [ reflexivity | ].
    subst sent. cbn [set_DataReliability set_Sig RequestBlock]. exact Hblock.
Qed.
End ReliabilityFacts.

(** ** Releasing the session *)

Section ReleaseFacts.
Variable w : World.
Variable cl : Closure.

Lemma callback_send_relay_releases (unresponsiveProviders : bytes)
    (s : RelayState) :
  releases (trace (fst (callback_send_relay w cl unresponsiveProviders s)))
  = releases (trace s).
Proof.
  unfold callback_send_relay. simpl_state.
  destruct (SignRelay _ _ _) as [sig | e]; simpl_state.
  2:{ rewrite releases_app. cbn. lia. }
  destruct (isSubscription cl).
  - destruct (RelaySubscribe w _ _ _ _) as [replyServer | err];
      unfold send_failed; simpl_state.
    + rewrite !releases_app. cbn. lia.
    + destruct (is_deadline_exceeded err); simpl_state;
        rewrite !releases_app; cbn; lia.
  - destruct (Relay w _ _ _ _) as [reply | err].
    + unfold relay_answered. simpl_state.
      destruct (VerifyRelayReply _ _ _ _ _ _); simpl_state.
      * rewrite !releases_app. cbn. lia.
      * destruct (ExpectedBlockHeight _ _) as [expectedBH numOfProviders].
        simpl_state. rewrite !releases_app. cbn. lia.
    + unfold send_failed.
      destruct (is_deadline_exceeded err); simpl_state;
        rewrite !releases_app; cbn; lia.
Qed.

Lemma callback_send_reliability_releases (dataReliability : option VRFData)
    (unresponsiveProviders : bytes) (s : RelayState) :
  releases
    (trace (fst (callback_send_reliability w cl dataReliability
                   unresponsiveProviders s)))
  = releases (trace s).
Proof.
  unfold callback_send_reliability.
  destruct (blockHeight s <? 0); [ reflexivity | ]. simpl_state.
  destruct (SignRelay _ _ _) as [sig | e1]; simpl_state.
  2:{ rewrite releases_app. cbn. lia. }
  destruct (SignVRFData _ _ _) as [sig' | e2]; simpl_state.
  2:{ rewrite !releases_app. cbn. lia. }
  destruct dataReliability as [vrf | ]; simpl_state.
  2:{ rewrite !releases_app. cbn. lia. }
  destruct (Relay w _ _ _ _) as [reply | e3]; simpl_state.
  2:{ rewrite !releases_app. cbn. lia. }
  destruct (VerifyRelayReply _ _ _ _ _ _) as [e4 | ]; simpl_state;
    rewrite !releases_app; cbn; lia.
Qed.

(** The orchestrator reaches the session manager only through the
    closures, and the closures never release. *)
Lemma run_orchestration_releases (o : Orchestration) :
  forall s : RelayState,
    releases (trace (fst (run_orchestration w cl o s))) = releases (trace s).
Proof.
  induction o as [ res | u k IH | d u k IH ]; intros s; cbn [run_orchestration].
  - reflexivity.
  - pose proof (callback_send_relay_releases u s) as H.
    destruct (callback_send_relay w cl u s) as [s' res]. cbn [fst] in H.
    rewrite IH. exact H.
  - pose proof (callback_send_reliability_releases d u s) as H.
    destruct (callback_send_reliability w cl d u s) as [s' [res | msg]];
      cbn [fst] in H.
    + rewrite IH. exact H.
    + exact H.
Qed.
End ReleaseFacts.

(** [SendRelay] tells the session manager that the session is done once when
    it returns a reply, and not at all when it panics or returns without a
    reply (the parse or the lease failed). *)
Lemma SendRelay_release_accounting (w : World) (ctx : Context) (cp : ChainProxy)
    (privKey : PrivateKey) (url req connectionType : string)
    (tr : list Event) :
  let '(tr', out) := SendRelay w ctx cp privKey url req connectionType tr in
  match out with
  | Returned (Some _, _, _) => releases tr' = S (releases tr)
  | Returned (None, _, _) => releases tr' = releases tr
  | Panicked _ => releases tr' = releases tr
  end.
Proof.
  unfold SendRelay.
  destruct (ParseMsg cp url _ connectionType) as [nodeMsg | e]; [ | reflexivity ].
  destruct (GetSession _ ctx _) as [[[[session epoch] provider] reported] | e].
  2:{ rewrite releases_app. cbn. lia. }
  match goal with
  | |- context [run_orchestration w ?cl ?o ?s] =>
    pose proof (run_orchestration_releases w cl o s) as H;
      destruct (run_orchestration w cl o s) as [s' [[[reply rs] err] | msg]]
  end; cbn [fst] in H; unfold initial_state in H; simpl_state.
  - destruct reply as [r | ].
    + rewrite releases_app, H, releases_app. cbn. lia.
    + rewrite H, releases_app. cbn. lia.
  - rewrite H, releases_app. cbn. lia.
Qed.

(** C1 at a failing input.  A session is leased from a provider that then
    lets the unary relay run into the deadline; the orchestrator hands the
    closure's nil reply and error back.  [SendRelay] then reads
    [reply.LatestBlock] from the nil reply and panics: it does not return,
    and the session manager is never told that the session is done. *)
Theorem SendRelay_timeout_never_releases :
  let '(tr, out) :=
    SendRelay toy_world context_Background (toy_proxy "slow" false) toy_key
      "/block" "eth_blockNumber" "POST" [] in
  In (EvGetSession context_Background 10) tr
  /\ out = Panicked nil_dereference
  /\ releases tr = 0%nat.
Proof.
  vm_compute. split; [ left; reflexivity | split; reflexivity ].
Qed.

(** ** The properties on the concrete network *)

Lemma signing_failure_sends_nothing_witness :
  (let '(s', res) :=
     callback_send_relay toy_world (toy_closure "honest" false []) []
       (fresh_at "honest") in
   res = (None, None, None, Some (foreign_error "sigs" "empty private key"))
   /\ sends (trace s') = sends (trace (fresh_at "honest")))
  /\ (let '(s', res) :=
        callback_send_reliability toy_world (unary_to "honest")
          (Some (toy_vrf "")) [] (relayed_at "honest") in
      res = Returned (None, None,
                      Some (foreign_error "sigs" "empty vrf proof"))
      /\ sends (trace s') = sends (trace (relayed_at "honest"))).
Proof.
  split.
  - apply (proj1 (signing_failure_sends_nothing toy_world
                    (toy_closure "honest" false []) None []
                    (fresh_at "honest")
                    (foreign_error "sigs" "empty private key"))).
    reflexivity.
  - apply (proj2 (signing_failure_sends_nothing toy_world (unary_to "honest")
                    (Some (toy_vrf "")) [] (relayed_at "honest")
                    (foreign_error "sigs" "empty vrf proof"))).
    + vm_compute. discriminate.
    + right. split; [ exists toy_key; reflexivity | reflexivity ].
Defined.

Lemma primary_send_context_witness :
  sends (trace (relayed_at "honest"))
  = [EvRelay (context_WithTimeout context_Background 5000000000)
       (set_Sig (primary_request (unary_to "honest") []
                   (set_blockHeight 20 (fresh_at "honest"))) toy_key)]
  /\ sends (trace (fst (callback_send_relay toy_world
                          (toy_closure "honest" true toy_key) []
                          (fresh_at "honest"))))
     = [EvRelaySubscribe context_Background
          (set_Sig (primary_request (toy_closure "honest" true toy_key) []
                      (set_blockHeight 20 (fresh_at "honest"))) toy_key)].
Proof.
  split.
  - exact (proj2 (primary_send_context toy_world (unary_to "honest") []
                    (fresh_at "honest") toy_key eq_refl)).
  - exact (proj2 (primary_send_context toy_world
                    (toy_closure "honest" true toy_key) []
                    (fresh_at "honest") toy_key eq_refl)).
Defined.

Lemma consecutive_timeouts_after_relay_witness :
  scorer_keeps_counters toy_world
  /\ timeouts (relayed_at "slow") = 1
  /\ timeouts (relayed_at "down") = 0
  /\ timeouts (relayed_at "honest") = 0.
Proof.
  split; [ exact toy_scorer_keeps_counters | ].
  split; [ | split ].
  - exact (consecutive_timeouts_after_relay toy_world (unary_to "slow") []
             (fresh_at "slow") toy_scorer_keeps_counters).
  - exact (consecutive_timeouts_after_relay toy_world (unary_to "down") []
             (fresh_at "down") toy_scorer_keeps_counters).
  - exact (consecutive_timeouts_after_relay toy_world (unary_to "honest") []
             (fresh_at "honest") toy_scorer_keeps_counters).
Defined.

Lemma relay_counters_stay_ordered_witness :
  0 <= answered (fresh_at "down") <= total (fresh_at "down")
  /\ total (fresh_at "down") < max_uint64
  /\ answered (relayed_at "down") <= total (relayed_at "down")
  /\ total (relayed_at "down") = 1
  /\ answered (relayed_at "down") = 0.
Proof.
  assert (Hord : 0 <= answered (fresh_at "down") <= total (fresh_at "down"))
    by (cbn; lia).
  assert (Hmax : total (fresh_at "down") < max_uint64) by reflexivity.
  destruct (relay_counters_stay_ordered toy_world (unary_to "down") []
              (fresh_at "down") toy_scorer_keeps_counters Hord Hmax)
    as (Hle & Htot & Hans).
  repeat split; try assumption; cbn; lia.
Defined.

(** C10 as stated fails when TotalRelays is the largest uint64: the
    increment wraps to zero and the send that follows is refused, so
    AnsweredRelays stays above TotalRelays. *)
Lemma relay_counters_wrap_counterexample :
  answered (toy_state "down" saturated_QoSInfo)
    <= total (toy_state "down" saturated_QoSInfo)
  /\ total (fst (callback_send_relay toy_world (unary_to "down") []
                   (toy_state "down" saturated_QoSInfo))) = 0
  /\ answered (fst (callback_send_relay toy_world (unary_to "down") []
                      (toy_state "down" saturated_QoSInfo))) = 1
  /\ ~ (answered (fst (callback_send_relay toy_world (unary_to "down") []
                         (toy_state "down" saturated_QoSInfo)))
        <= total (fst (callback_send_relay toy_world (unary_to "down") []
                         (toy_state "down" saturated_QoSInfo)))).
Proof.
  assert (Ht : total (fst (callback_send_relay toy_world (unary_to "down") []
                             (toy_state "down" saturated_QoSInfo))) = 0)
    by reflexivity.
  assert (Ha : answered (fst (callback_send_relay toy_world (unary_to "down") []
                                (toy_state "down" saturated_QoSInfo))) = 1)
    by reflexivity.
  split; [ vm_compute; discriminate | ].
  split; [ exact Ht | ]. split; [ exact Ha | ].
  rewrite Ht, Ha. lia.
Qed.

Lemma verification_failure_counts_as_answered_witness :
  let '(s', res) :=
    callback_send_relay toy_world (unary_to "forger") [] (fresh_at "forger") in
  res = (None, None, None,
         Some (mismatch_in_reply "lava@mallory" "lava@provider"))
  /\ answered s' = incr_uint64 (answered (fresh_at "forger"))
  /\ answered s' <> answered (fresh_at "forger").
Proof.
  exact (verification_failure_counts_as_answered toy_world (unary_to "forger")
           [] (fresh_at "forger") toy_key
           (toy_reply "lava@mallory" "lava@mallory")
           (mismatch_in_reply "lava@mallory" "lava@provider")
           eq_refl eq_refl eq_refl eq_refl).
Defined.

(** C2 as stated fails: the provider at "forger" signs with another key, the
    verification of its reply fails and the closure returns the error, yet
    AnsweredRelays went from 0 to 1. *)
Lemma verification_failure_answered_counterexample :
  Relay toy_world
    (trace (fresh_at "forger")
     ++ [EvSignRelay (primary_request (unary_to "forger") []
                        (set_blockHeight 20 (fresh_at "forger")))])
    "forger" (context_WithTimeout context_Background DefaultTimeout)
    (set_Sig (primary_request (unary_to "forger") []
                (set_blockHeight 20 (fresh_at "forger"))) toy_key)
  = Ok (toy_reply "lava@mallory" "lava@mallory")
  /\ VerifyRelayReply toy_sigs toy_sdk (toy_reply "lava@mallory" "lava@mallory")
       (toy_UpdateRequestedBlock
          (set_Sig (primary_request (unary_to "forger") []
                      (set_blockHeight 20 (fresh_at "forger"))) toy_key)
          (toy_reply "lava@mallory" "lava@mallory"))
       "lava@provider" false
     = Some (mismatch_in_reply "lava@mallory" "lava@provider")
  /\ snd (callback_send_relay toy_world (unary_to "forger") []
            (fresh_at "forger"))
     = (None, None, None,
        Some (mismatch_in_reply "lava@mallory" "lava@provider"))
  /\ answered (fresh_at "forger") = 0
  /\ answered (relayed_at "forger") = 1.
Proof.
  repeat split; reflexivity.
Qed.

Lemma reliability_request_pins_resolved_block_witness :
  RequestedBlock (nodeMsg (unary_to "honest")) = LATEST_BLOCK
  /\ SessionId (reliability_request (unary_to "honest") (Some (toy_vrf "proof"))
                  [] (relayed_at "honest")) = 0
  /\ RequestBlock (reliability_request (unary_to "honest")
                     (Some (toy_vrf "proof")) [] (relayed_at "honest")) = 120
  /\ sends (trace (fst (callback_send_reliability toy_world
                          (unary_to "honest") (Some (toy_vrf "proof")) []
                          (relayed_at "honest"))))
     = sends (trace (relayed_at "honest"))
       ++ [EvRelay context_Background
             (set_DataReliability
                (set_Sig (reliability_request (unary_to "honest")
                            (Some (toy_vrf "proof")) [] (relayed_at "honest"))
                   toy_key)
                (Some (set_vrf_Sig (toy_vrf "proof") toy_key)))].
Proof.
  destruct (reliability_request_pins_resolved_block toy_world
              (unary_to "honest") [] (fresh_at "honest") toy_key
              (toy_reply "lava@provider" "lava@provider")
              (Some (toy_vrf "proof")) [])
    as (Hid & Hblock & Hrun).
  destruct (Hid (relayed_at "honest")) as [Hzero _].
  destruct (Hblock eq_refl eq_refl eq_refl) as [Hresolved _].
  assert (Hepoch : 0 <= int64 (epoch (unary_to "honest")))
    by (vm_compute; discriminate).
  destruct (Hrun eq_refl eq_refl eq_refl Hepoch) as [_ Hsent].
  destruct (Hsent (toy_vrf "proof") toy_key toy_key eq_refl eq_refl eq_refl)
    as [Hsends _].
  split; [ reflexivity | ]. split; [ exact Hzero | ].
  split; [ exact Hresolved | exact Hsends ].
Defined.

(** * Further properties *)

(** ** The authenticator, in full *)

Section VerifyFacts.
Variable sigs : Sigs.
Variable sdk : Sdk.

(** X1. Without cross validation [VerifyRelayReply] accepts a reply exactly
    when the key recovered from the reply's signature has an address whose
    text is the expected [addr]. *)
Theorem VerifyRelayReply_accepts_expected_signer
    (reply : RelayReply) (relayRequest : RelayRequest) (addr : string) :
  VerifyRelayReply sigs sdk reply relayRequest addr false = None
  <-> exists serverKey serverAddr,
        RecoverPubKeyFromRelayReply sigs reply relayRequest = Ok serverKey
        /\ AccAddressFromHex sdk (PubKey_Address_String sdk serverKey)
           = Ok serverAddr
        /\ AccAddress_String sdk serverAddr = addr.
Proof.
  unfold VerifyRelayReply. split.
  - destruct (RecoverPubKeyFromRelayReply sigs reply relayRequest)
      as [key | e] eqn:Hrec; [ | discriminate ].
    destruct (AccAddressFromHex sdk (PubKey_Address_String sdk key))
      as [a | e] eqn:Hhex; [ | discriminate ].
    destruct (String.eqb_spec (AccAddress_String sdk a) addr) as [E | N];
      cbn [negb]; [ | discriminate ].
    intros _. exists key, a. auto.
  - intros (key & a & Hrec & Hhex & Haddr).
    rewrite Hrec, Hhex. apply String.eqb_eq in Haddr. rewrite Haddr.
    reflexivity.
Qed.

(** X2. With cross validation it accepts exactly when the primary check
    accepts and, in addition, [addr] parses as a bech32 address and the key
    recovered from the finalization data for that address has that very
    address. *)
Theorem VerifyRelayReply_accepts_cross_validated
    (reply : RelayReply) (relayRequest : RelayRequest) (addr : string) :
  VerifyRelayReply sigs sdk reply relayRequest addr true = None
  <-> VerifyRelayReply sigs sdk reply relayRequest addr false = None
      /\ exists strAdd serverKey serverAddr,
           AccAddressFromBech32 sdk addr = Ok strAdd
           /\ RecoverPubKeyFromResponseFinalizationData sigs reply
                relayRequest strAdd = Ok serverKey
           /\ AccAddressFromHex sdk (PubKey_Address_String sdk serverKey)
              = Ok serverAddr
           /\ AccAddress_String sdk serverAddr = AccAddress_String sdk strAdd.
Proof.
  unfold VerifyRelayReply.
  destruct (RecoverPubKeyFromRelayReply sigs reply relayRequest)
    as [key | e]; [ | split; [ discriminate | intros [H _]; discriminate ] ].
  destruct (AccAddressFromHex sdk (PubKey_Address_String sdk key))
    as [a | e]; [ | split; [ discriminate | intros [H _]; discriminate ] ].
  destruct (negb (AccAddress_String sdk a =? addr)%string);
    [ split; [ discriminate | intros [H _]; discriminate ] | ].
  split.
  - destruct (AccAddressFromBech32 sdk addr) as [strAdd | e] eqn:Hbech;
      [ | discriminate ].
    destruct (RecoverPubKeyFromResponseFinalizationData sigs reply
                relayRequest strAdd) as [key2 | e] eqn:Hrec; [ | discriminate ].
    destruct (AccAddressFromHex sdk (PubKey_Address_String sdk key2))
      as [a2 | e] eqn:Hhex; [ | discriminate ].
    destruct (String.eqb_spec (AccAddress_String sdk a2)
                (AccAddress_String sdk strAdd)) as [E | N];
      cbn [negb]; [ | discriminate ].
    intros _. split; [ reflexivity | ]. exists strAdd, key2, a2.
    repeat split; assumption || reflexivity.
  - intros [_ (strAdd & key2 & a2 & Hbech & Hrec & Hhex & Heq)].
    rewrite Hbech, Hrec, Hhex. apply String.eqb_eq in Heq. rewrite Heq.
    reflexivity.
Qed.

(** X3. A reply the primary check rejects is rejected with the same error
    whether or not cross validation is asked for: the finalization data is
    only looked at after the primary check has passed. *)
Theorem VerifyRelayReply_primary_failure_decides
    (reply : RelayReply) (relayRequest : RelayRequest) (addr : string)
    (err : error) (comparesHashes : bool) :
  VerifyRelayReply sigs sdk reply relayRequest addr false = Some err ->
  VerifyRelayReply sigs sdk reply relayRequest addr comparesHashes = Some err.
Proof.
  destruct comparesHashes; [ | trivial ].
  unfold VerifyRelayReply.
  destruct (RecoverPubKeyFromRelayReply sigs reply relayRequest)
    as [key | e]; [ | trivial ].
  destruct (AccAddressFromHex sdk (PubKey_Address_String sdk key))
    as [a | e]; [ | trivial ].
  destruct (negb (AccAddress_String sdk a =? addr)%string);
    [ trivial | discriminate ].
Qed.
End VerifyFacts.

Lemma VerifyRelayReply_primary_failure_decides_witness :
  VerifyRelayReply toy_sigs toy_sdk (toy_reply "lava@mallory" "lava@provider")
    (primary_request (unary_to "forger") [] (fresh_at "forger"))
    "lava@provider" true
  = Some (mismatch_in_reply "lava@mallory" "lava@provider").
Proof.
  apply (VerifyRelayReply_primary_failure_decides toy_sigs toy_sdk).
  reflexivity.
Defined.

(** ** The factory, once more *)

(** X4. Of the proxy and the error that [GetChainProxy] returns exactly one
    is nil. *)
Theorem GetChainProxy_proxy_xor_error
    (NewJrpc NewTendermint : string -> Z -> Sentry -> ConsumerSessionManager ->
                             ChainProxy)
    (NewRest : string -> Sentry -> ConsumerSessionManager -> ChainProxy)
    (zero : ConsumerSessionManager)
    (nodeUrl : string) (nConns : Z) (sentry : Sentry) :
  match GetChainProxy NewJrpc NewTendermint NewRest zero nodeUrl nConns sentry
  with
  | (Some _, None) | (None, Some _) => True
  | (Some _, Some _) | (None, None) => False
  end.
Proof.
  unfold GetChainProxy.
  destruct (ApiInterface sentry =? "jsonrpc")%string; [ exact I | ].
  destruct (ApiInterface sentry =? "tendermintrpc")%string; [ exact I | ].
  destruct (ApiInterface sentry =? "rest")%string; exact I.
Qed.

(** ** What the primary closure hands back *)

Section PrimaryFacts.
Variable w : World.
Variable cl : Closure.

(** X5. The primary closure returns either an error with nothing else, or
    no error together with the request and a pointer to the stream
    variable; the reply is there exactly for a message that is not a
    subscription, and the stream exactly for one that is. *)
Theorem callback_send_relay_result_shape
    (unresponsiveProviders : bytes) (s : RelayState) :
  let '(reply, replyServer, request, err) :=
    snd (callback_send_relay w cl unresponsiveProviders s) in
  match err with
  | Some _ => reply = None /\ replyServer = None /\ request = None
  | None =>
    request <> None
    /\ if isSubscription cl
       then reply = None /\ exists stream, replyServer = Some (Some stream)
       else reply <> None /\ replyServer = Some None
  end.
Proof.
  unfold callback_send_relay. simpl_state.
  destruct (SignRelay _ _ _) as [sig | e]; simpl_state; [ | auto ].
  destruct (isSubscription cl).
  - destruct (RelaySubscribe w _ _ _ _) as [stream | err];
      unfold send_failed; simpl_state.
    + split; [ discriminate | ]. split; [ reflexivity | ]. eauto.
    + auto.
  - destruct (Relay w _ _ _ _) as [reply | err].
    + unfold relay_answered. simpl_state.
      destruct (VerifyRelayReply _ _ _ _ _ _) as [e | ]; simpl_state;
        [ auto | ].
      destruct (ExpectedBlockHeight _ _) as [expectedBH numOfProviders].
      simpl_state.
      split; [ discriminate | ]. split; [ discriminate | reflexivity ].
    + unfold send_failed. simpl_state. auto.
Qed.

(** X6. A reply that the primary closure returns is the reply the transport
    gave to the signed request, and it has passed [VerifyRelayReply] against
    the session's [Client.Acc]; the request returned with it is the signed
    request as [UpdateRequestedBlock] rewrote it. *)
Theorem callback_send_relay_reply_is_verified
    (unresponsiveProviders : bytes) (s : RelayState) (reply : RelayReply)
    (replyServer : option (option SubscribeClient))
    (request : option RelayRequest) (err : option error) :
  snd (callback_send_relay w cl unresponsiveProviders s)
  = (Some reply, replyServer, request, err) ->
  let relayRequest :=
    primary_request cl unresponsiveProviders
      (set_blockHeight (int64 (epoch cl)) s) in
  err = None
  /\ isSubscription cl = false
  /\ exists sig,
       SignRelay (sigs w) (privKey cl) relayRequest = Ok sig
       /\ Relay w (trace s ++ [EvSignRelay relayRequest])
            (Endpoint (consumerSession s))
            (context_WithTimeout (ctx cl) DefaultTimeout)
            (set_Sig relayRequest sig) = Ok reply
       /\ request
          = Some (UpdateRequestedBlock w (set_Sig relayRequest sig) reply)
       /\ VerifyRelayReply (sigs w) (sdk w) reply
            (UpdateRequestedBlock w (set_Sig relayRequest sig) reply)
            (Client_Acc (consumerSession s))
            (GetSpecComparesHashes (GetSentry (cp cl))) = None.
Proof.
  intros Hres relayRequest. subst relayRequest. revert Hres.
  unfold callback_send_relay. simpl_state.
  destruct (SignRelay _ _ _) as [sig | e] eqn:Hsign; simpl_state;
    [ | discriminate ].
  destruct (isSubscription cl) eqn:Hsub.
  - destruct (RelaySubscribe w _ _ _ _) as [stream | e];
      unfold send_failed; simpl_state; discriminate.
  - destruct (Relay w _ _ _ _) as [reply' | e] eqn:Hrelay.
    + unfold relay_answered. simpl_state.
      destruct (VerifyRelayReply _ _ _ _ _ _) as [e | ] eqn:Hverify;
        simpl_state; [ discriminate | ].
      destruct (ExpectedBlockHeight _ _) as [expectedBH numOfProviders].
      simpl_state. intros H. injection H as Hreply _ Hrequest Herr.
      subst reply'.
      split; [ auto | ]. split; [ reflexivity | ].
      exists sig. repeat split; auto.
    + unfold send_failed. simpl_state. discriminate.
Qed.

(** X7. For a subscription that opens, the closure only counts the attempt:
    the session is as before except that TotalRelays went up, the captured
    [requestedBlock] is untouched, and the result is the stream with the
    signed request.  Nothing is verified and nothing is scored. *)
Theorem subscription_is_only_counted
    (unresponsiveProviders : bytes) (s : RelayState) (sig : bytes)
    (stream : SubscribeClient) :
  let relayRequest :=
    primary_request cl unresponsiveProviders
      (set_blockHeight (int64 (epoch cl)) s) in
  isSubscription cl = true ->
  SignRelay (sigs w) (privKey cl) relayRequest = Ok sig ->
  RelaySubscribe w (trace s ++ [EvSignRelay relayRequest])
    (Endpoint (consumerSession s)) (ctx cl) (set_Sig relayRequest sig)
  = Ok stream ->
  let '(s', res) := callback_send_relay w cl unresponsiveProviders s in
  res = (None, Some (Some stream), Some (set_Sig relayRequest sig), None)
  /\ consumerSession s'
     = set_QoSInfo (consumerSession s)
         (set_TotalRelays (QoSInfo_ (consumerSession s))
            (incr_uint64 (total s)))
  /\ requestedBlock s' = requestedBlock s
  /\ trace s'
     = trace s ++ [EvSignRelay relayRequest;
                   EvRelaySubscribe (ctx cl) (set_Sig relayRequest sig)].
Proof.
  intros relayRequest Hsub Hsign Hopen. subst relayRequest.
  unfold callback_send_relay, total. simpl_state.
  rewrite Hsign, Hsub. simpl_state. rewrite Hopen. simpl_state.
  repeat split. rewrite <- app_assoc. reflexivity.
Qed.

(** X8. Whatever happens in it, the primary closure leaves [blockHeight] at
    [int64(epoch)]: the epoch itself when it is below 2^63, and the epoch
    less 2^64, a negative number, when it is a uint64 from 2^63 on. *)
Theorem blockHeight_after_relay (unresponsiveProviders : bytes)
    (s : RelayState) :
  let s' := fst (callback_send_relay w cl unresponsiveProviders s) in
  blockHeight s' = int64 (epoch cl)
  /\ (0 <= epoch cl < 2 ^ 63 -> blockHeight s' = epoch cl)
  /\ (2 ^ 63 <= epoch cl < 2 ^ 64 ->
      blockHeight s' = epoch cl - 2 ^ 64 /\ blockHeight s' < 0).
Proof.
  assert (H : blockHeight
                (fst (callback_send_relay w cl unresponsiveProviders s))
              = int64 (epoch cl)).
  { unfold callback_send_relay. simpl_state.
    destruct (SignRelay _ _ _) as [sig | e]; simpl_state; [ | reflexivity ].
    destruct (isSubscription cl).
    - destruct (RelaySubscribe w _ _ _ _) as [stream | err];
        unfold send_failed; simpl_state; [ reflexivity | ].
      destruct (is_deadline_exceeded err); reflexivity.
    - destruct (Relay w _ _ _ _) as [reply | err].
      + unfold relay_answered. simpl_state.
        destruct (VerifyRelayReply _ _ _ _ _ _); simpl_state;
          [ reflexivity | ].
        destruct (ExpectedBlockHeight _ _) as [expectedBH numOfProviders].
        reflexivity.
      + unfold send_failed.
        destruct (is_deadline_exceeded err); reflexivity. }
  cbv zeta. rewrite H. split; [ reflexivity | ]. unfold int64. split.
  - intros Hlow. rewrite Z.mod_small by lia. lia.
  - intros Hhigh.
    replace (epoch cl + 2 ^ 63) with (epoch cl - 2 ^ 63 + 1 * 2 ^ 64) by lia.
    rewrite Z.mod_add by lia. rewrite Z.mod_small by lia. lia.
Qed.
End PrimaryFacts.

(** ** What the reliability closure does and does not do *)

Section ReliabilityClosureFacts.
Variable w : World.
Variable cl : Closure.

(** X9. The reliability closure changes nothing but the trace: the session
    with its counters, [blockHeight] and [requestedBlock] come out as they
    went in, on every path, so a reliability relay is never counted. *)
Theorem callback_send_reliability_frame (dataReliability : option VRFData)
    (unresponsiveProviders : bytes) (s : RelayState) :
  let s' :=
    fst (callback_send_reliability w cl dataReliability unresponsiveProviders s)
  in
  consumerSession s' = consumerSession s
  /\ blockHeight s' = blockHeight s
  /\ requestedBlock s' = requestedBlock s
  /\ exists evs, trace s' = trace s ++ evs.
Proof.
  unfold callback_send_reliability.
  destruct (blockHeight s <? 0).
  { cbn. repeat split. exists []. symmetry. apply app_nil_r. }
  simpl_state.
  destruct (SignRelay _ _ _) as [sig | e1]; simpl_state.
  2:{ repeat split. eauto. }
  destruct (SignVRFData _ _ _) as [sig' | e2]; simpl_state.
  2:{ repeat split. rewrite <- app_assoc. eauto. }
  destruct dataReliability as [vrf | ]; simpl_state.
  2:{ repeat split. rewrite <- app_assoc. eauto. }
  destruct (Relay w _ _ _ _) as [reply | e3]; simpl_state.
  2:{ repeat split. rewrite <- !app_assoc. eauto. }
  destruct (VerifyRelayReply _ _ _ _ _ _) as [e4 | ]; simpl_state;
    repeat split; rewrite <- !app_assoc; eauto.
Qed.

(** X10. The reliability closure sends at most once, and what it sends is
    the request it had signed, with that signature and the signature of the
    VRF data filled in, by the unary [Relay] under the caller's own [ctx]:
    unlike the primary relay, this send has no timeout of its own. *)
Theorem reliability_send_is_the_signed_request
    (dataReliability : option VRFData) (unresponsiveProviders : bytes)
    (s : RelayState) :
  let built :=
    reliability_request cl dataReliability unresponsiveProviders s in
  let s' :=
    fst (callback_send_reliability w cl dataReliability unresponsiveProviders s)
  in
  sends (trace s') = sends (trace s)
  \/ exists vrf sig sig',
       dataReliability = Some vrf
       /\ SignRelay (sigs w) (privKey cl) built = Ok sig
       /\ SignVRFData (sigs w) (privKey cl) (Some vrf) = Ok sig'
       /\ sends (trace s')
          = sends (trace s)
            ++ [EvRelay (ctx cl)
                  (set_DataReliability (set_Sig built sig)
                     (Some (set_vrf_Sig vrf sig')))].
Proof.
  unfold callback_send_reliability.
  destruct (blockHeight s <? 0); [ left; reflexivity | ].
  simpl_state.
  destruct (SignRelay _ _ _) as [sig | e1] eqn:Hsign; simpl_state.
  2:{ left. rewrite sends_app. cbn. apply app_nil_r. }
  destruct (SignVRFData _ _ _) as [sig' | e2] eqn:Hvrf; simpl_state.
  2:{ left. rewrite !sends_app. cbn. rewrite !app_nil_r. reflexivity. }
  destruct dataReliability as [vrf | ]; simpl_state.
  2:{ left. rewrite !sends_app. cbn. rewrite !app_nil_r. reflexivity. }
  right. exists vrf, sig, sig'.
  split; [ reflexivity | ]. split; [ reflexivity || exact Hsign | ].
  split; [ reflexivity || exact Hvrf | ].
  destruct (Relay w _ _ _ _) as [reply | e3]; simpl_state.
  2:{ rewrite !sends_app. cbn. rewrite !app_nil_r. reflexivity. }
  destruct (VerifyRelayReply _ _ _ _ _ _) as [e4 | ]; simpl_state;
    rewrite !sends_app; cbn; rewrite !app_nil_r; reflexivity.
Qed.

(** X11. Called with nil VRF data the reliability closure never sends: it
    ends with the error of the guard or of a signing call, or it panics on
    the write to [DataReliability.Sig]. *)
Theorem reliability_without_vrf_never_sends
    (unresponsiveProviders : bytes) (s : RelayState) :
  let '(s', out) :=
    callback_send_reliability w cl None unresponsiveProviders s in
  sends (trace s') = sends (trace s)
  /\ (out = Panicked nil_dereference
      \/ exists err, out = Returned (None, None, Some err)).
Proof.
  unfold callback_send_reliability.
  destruct (blockHeight s <? 0); [ split; eauto | ].
  simpl_state.
  destruct (SignRelay _ _ _) as [sig | e1]; simpl_state.
  2:{ split; [ | eauto ]. rewrite sends_app. cbn. apply app_nil_r. }
  destruct (SignVRFData _ _ _) as [sig' | e2]; simpl_state.
  2:{ split; [ | eauto ]. rewrite !sends_app. cbn. rewrite !app_nil_r.
      reflexivity. }
  split; [ | auto ]. rewrite !sends_app. cbn. rewrite !app_nil_r.
  reflexivity.
Qed.

(** X12. A reply that the reliability closure returns is the reply the
    transport gave to the signed request, and it has passed
    [VerifyRelayReply] against the session's [Client.Acc]; the request
    returned beside it is the one that was sent, and [blockHeight] was not
    negative. *)
Theorem callback_send_reliability_reply_is_verified
    (dataReliability : option VRFData) (unresponsiveProviders : bytes)
    (s : RelayState) (reply : RelayReply) (request : option RelayRequest)
    (err : option error) :
  snd (callback_send_reliability w cl dataReliability unresponsiveProviders s)
  = Returned (Some reply, request, err) ->
  let built :=
    reliability_request cl dataReliability unresponsiveProviders s in
  err = None
  /\ 0 <= blockHeight s
  /\ exists vrf sig sig',
       dataReliability = Some vrf
       /\ SignRelay (sigs w) (privKey cl) built = Ok sig
       /\ SignVRFData (sigs w) (privKey cl) (Some vrf) = Ok sig'
       /\ request
          = Some (set_DataReliability (set_Sig built sig)
                    (Some (set_vrf_Sig vrf sig')))
       /\ Relay w
            ((trace s ++ [EvSignRelay built]) ++ [EvSignVRFData (Some vrf)])
            (Endpoint (consumerSession s)) (ctx cl)
            (set_DataReliability (set_Sig built sig)
               (Some (set_vrf_Sig vrf sig'))) = Ok reply
       /\ VerifyRelayReply (sigs w) (sdk w) reply
            (set_DataReliability (set_Sig built sig)
               (Some (set_vrf_Sig vrf sig')))
            (Client_Acc (consumerSession s))
            (GetSpecComparesHashes (GetSentry (cp cl))) = None.
Proof.
  intros Hres built. subst built. revert Hres.
  unfold callback_send_reliability.
  destruct (blockHeight s <? 0) eqn:Hheight; [ discriminate | ].
  apply Z.ltb_ge in Hheight. simpl_state.
  destruct (SignRelay _ _ _) as [sig | e1] eqn:Hsign; simpl_state;
    [ | discriminate ].
  destruct (SignVRFData _ _ _) as [sig' | e2] eqn:Hvrf; simpl_state;
    [ | discriminate ].
  destruct dataReliability as [vrf | ]; simpl_state; [ | discriminate ].
  destruct (Relay w _ _ _ _) as [reply' | e3] eqn:Hrelay; simpl_state;
    [ | discriminate ].
  destruct (VerifyRelayReply _ _ _ _ _ _) as [e4 | ] eqn:Hverify; simpl_state;
    [ discriminate | ].
  intros H. injection H as Hreply Hrequest Herr. subst reply'.
  split; [ auto | ]. split; [ exact Hheight | ].
  exists vrf, sig, sig'. repeat split; auto.
Qed.
End ReliabilityClosureFacts.

(** ** The closures under an orchestrator *)

Section OrchestrationFacts.
Variable w : World.
Variable cl : Closure.

Lemma reliability_keeps_blockHeight (dataReliability : option VRFData)
    (unresponsiveProviders : bytes) (s : RelayState) :
  blockHeight
    (fst (callback_send_reliability w cl dataReliability
            unresponsiveProviders s))
  = blockHeight s.
Proof.
  unfold callback_send_reliability.
  destruct (blockHeight s <? 0); [ reflexivity | ]. simpl_state.
  destruct (SignRelay _ _ _); simpl_state; [ | reflexivity ].
  destruct (SignVRFData _ _ _); simpl_state; [ | reflexivity ].
  destruct dataReliability; simpl_state; [ | reflexivity ].
  destruct (Relay w _ _ _ _); simpl_state; [ | reflexivity ].
  destruct (VerifyRelayReply _ _ _ _ _ _); reflexivity.
Qed.

(** The first thing the primary closure does to the outside is to have its
    request signed. *)
Lemma primary_trace_starts_with_signing (unresponsiveProviders : bytes)
    (s : RelayState) :
  exists evs,
    trace (fst (callback_send_relay w cl unresponsiveProviders s))
    = trace s
      ++ EvSignRelay (primary_request cl unresponsiveProviders
                        (set_blockHeight (int64 (epoch cl)) s)) :: evs.
Proof.
  unfold callback_send_relay. simpl_state.
  destruct (SignRelay _ _ _) as [sig | e]; simpl_state; [ | eauto ].
  destruct (isSubscription cl).
  - destruct (RelaySubscribe w _ _ _ _) as [stream | err];
      unfold send_failed; simpl_state.
    + rewrite <- app_assoc. cbn. eauto.
    + destruct (is_deadline_exceeded err); simpl_state;
        rewrite <- app_assoc; cbn; eauto.
  - destruct (Relay w _ _ _ _) as [reply | err].
    + unfold relay_answered. simpl_state.
      destruct (VerifyRelayReply _ _ _ _ _ _); simpl_state.
      * rewrite <- app_assoc. cbn. eauto.
      * destruct (ExpectedBlockHeight _ _) as [expectedBH numOfProviders].
        simpl_state. rewrite <- app_assoc. cbn. eauto.
    + unfold send_failed.
      destruct (is_deadline_exceeded err); simpl_state;
        rewrite <- app_assoc; cbn; eauto.
Qed.

Lemma reliability_trace_grows (dataReliability : option VRFData)
    (unresponsiveProviders : bytes) (s : RelayState) :
  exists evs,
    trace (fst (callback_send_reliability w cl dataReliability
                  unresponsiveProviders s))
    = trace s ++ evs.
Proof.
  unfold callback_send_reliability.
  destruct (blockHeight s <? 0).
  { exists []. symmetry. apply app_nil_r. }
  simpl_state.
  destruct (SignRelay _ _ _); simpl_state; [ | eauto ].
  destruct (SignVRFData _ _ _); simpl_state;
    [ | rewrite <- app_assoc; eauto ].
  destruct dataReliability; simpl_state; [ | rewrite <- app_assoc; eauto ].
  destruct (Relay w _ _ _ _); simpl_state;
    [ | rewrite <- !app_assoc; eauto ].
  destruct (VerifyRelayReply _ _ _ _ _ _); simpl_state;
    rewrite <- !app_assoc; eauto.
Qed.

Lemma run_orchestration_trace_grows (o : Orchestration) :
  forall s : RelayState,
    exists evs, trace (fst (run_orchestration w cl o s)) = trace s ++ evs.
Proof.
  induction o as [ res | u k IH | d u k IH ]; intros s; cbn [run_orchestration].
  - exists []. symmetry. apply app_nil_r.
  - destruct (primary_trace_starts_with_signing u s) as [evs1 H1].
    destruct (callback_send_relay w cl u s) as [s1 res]. cbn [fst] in H1.
    destruct (IH res s1) as [evs2 H2]. rewrite H2, H1, <- app_assoc. eauto.
  - destruct (reliability_trace_grows d u s) as [evs1 H1].
    destruct (callback_send_reliability w cl d u s) as [s1 [res | msg]];
      cbn [fst] in H1.
    + destruct (IH res s1) as [evs2 H2]. rewrite H2, H1, <- app_assoc. eauto.
    + eauto.
Qed.

(** X13. From the state right after the lease, an orchestrator either
    leaves the state exactly as it was (it returned at once, or called only
    the reliability closure, which refused) or the first event it causes is
    the signing of a primary request: nothing is signed for, or sent to, a
    reliability provider before the primary closure has run. *)
Theorem nothing_happens_before_the_primary_relay (o : Orchestration)
    (session : SingleConsumerSession) (tr : list Event) :
  let s0 := initial_state session tr in
  let s' := fst (run_orchestration w cl o s0) in
  s' = s0
  \/ exists unresponsiveProviders evs,
       trace s'
       = tr ++ EvSignRelay (primary_request cl unresponsiveProviders
                              (set_blockHeight (int64 (epoch cl)) s0)) :: evs.
Proof.
  cbv zeta.
  induction o as [ res | u k IH | d u k IH ]; cbn [run_orchestration].
  - left. reflexivity.
  - right. exists u.
    destruct (primary_trace_starts_with_signing u (initial_state session tr))
      as [evs1 H1].
    destruct (callback_send_relay w cl u (initial_state session tr))
      as [s1 res]. cbn [fst] in H1.
    destruct (run_orchestration_trace_grows (k res) s1) as [evs2 H2].
    rewrite H2, H1. cbn [trace initial_state].
    rewrite <- app_assoc. cbn. eauto.
  - change (callback_send_reliability w cl d u (initial_state session tr))
      with (initial_state session tr,
            @Returned ReliabilityCallbackResult
              (None, None, Some called_too_early)).
    apply IH.
Qed.

(** X14. Once the primary closure has run, [blockHeight] stays at
    [int64(epoch)] through everything the orchestrator does next, so every
    reliability request built afterwards carries the BlockHeight of the
    primary request. *)
Theorem blockHeight_is_pinned_after_relay (o : Orchestration)
    (unresponsiveProviders : bytes) (s : RelayState)
    (dataReliability : option VRFData) (unresponsiveProviders' : bytes) :
  let s1 := fst (callback_send_relay w cl unresponsiveProviders s) in
  let s2 := fst (run_orchestration w cl o s1) in
  blockHeight s2 = int64 (epoch cl)
  /\ BlockHeight
       (reliability_request cl dataReliability unresponsiveProviders' s2)
     = BlockHeight
         (primary_request cl unresponsiveProviders
            (set_blockHeight (int64 (epoch cl)) s)).
Proof.
  cbv zeta.
  assert (H : forall o' s', blockHeight s' = int64 (epoch cl) ->
                blockHeight (fst (run_orchestration w cl o' s'))
                = int64 (epoch cl)).
  { induction o' as [ res | u k IH | d u k IH ]; intros s' Hs';
      cbn [run_orchestration].
    - exact Hs'.
    - pose proof (primary_sets_blockHeight w cl u s') as H1.
      destruct (callback_send_relay w cl u s') as [s1 res]. cbn [fst] in H1.
      apply IH. exact H1.
    - pose proof (reliability_keeps_blockHeight d u s') as H1.
      destruct (callback_send_reliability w cl d u s') as [s1 [res | msg]];
        cbn [fst] in H1.
      + apply IH. congruence.
      + cbn [fst]. congruence. }
  pose proof (H o _ (primary_sets_blockHeight w cl unresponsiveProviders s))
    as Hpin.
  split; [ exact Hpin | ].
  cbn [reliability_request primary_request BlockHeight set_blockHeight
       blockHeight].
  exact Hpin.
Qed.

(** X15. For an epoch that is a uint64 from 2^63 on, [int64(epoch)] is
    negative, and the reliability closure then refuses with "expected
    callback_send_relay to be called first" even right after the primary
    closure has run. *)
Theorem reliability_refused_for_late_epoch
    (unresponsiveProviders : bytes) (s : RelayState)
    (dataReliability : option VRFData) (unresponsiveProviders' : bytes) :
  2 ^ 63 <= epoch cl < 2 ^ 64 ->
  let s1 := fst (callback_send_relay w cl unresponsiveProviders s) in
  callback_send_reliability w cl dataReliability unresponsiveProviders' s1
  = (s1, Returned (None, None, Some called_too_early)).
Proof.
  intros Hepoch s1.
  assert (Hneg : (blockHeight s1 <? 0) = true).
  { subst s1. rewrite primary_sets_blockHeight. apply Z.ltb_lt.
    unfold int64.
    replace (epoch cl + 2 ^ 63) with (epoch cl - 2 ^ 63 + 1 * 2 ^ 64) by lia.
    rewrite Z.mod_add by lia. rewrite Z.mod_small by lia. lia. }
  unfold callback_send_reliability. rewrite Hneg. reflexivity.
Qed.

(** X16. When the provider lets every unary relay run into the deadline, [n]
    calls of the primary closure in a row raise ConsecutiveTimeOut and
    TotalRelays by [n] each, as long as neither counter passes the largest
    uint64, and leave AnsweredRelays alone. *)
Theorem successive_timeouts_add_up (n : nat) (unresponsiveProviders : bytes) :
  isSubscription cl = false ->
  (forall request, exists sig,
      SignRelay (sigs w) (privKey cl) request = Ok sig) ->
  forall s : RelayState,
    (forall tr c request, exists err,
        Relay w tr (Endpoint (consumerSession s)) c request = Err err
        /\ Error err = "context deadline exceeded") ->
    0 <= timeouts s -> timeouts s + Z.of_nat n <= max_uint64 ->
    0 <= total s -> total s + Z.of_nat n <= max_uint64 ->
    let s' :=
      fst (run_orchestration w cl (retry_relay n unresponsiveProviders) s) in
    timeouts s' = timeouts s + Z.of_nat n
    /\ total s' = total s + Z.of_nat n
    /\ answered s' = answered s.
Proof.
  intros Hunary Hsign. cbv zeta.
  induction n as [ | n IH ]; intros s Hslow Ht0 Ht Hn0 Hn.
  - cbn [retry_relay run_orchestration fst]. rewrite !Z.add_0_r. auto.
  - cbn [retry_relay run_orchestration].
    assert (Hstep :
              exists s1 res,
                callback_send_relay w cl unresponsiveProviders s = (s1, res)
                /\ timeouts s1 = timeouts s + 1
                /\ total s1 = total s + 1
                /\ answered s1 = answered s
                /\ Endpoint (consumerSession s1)
                   = Endpoint (consumerSession s)).
    { unfold callback_send_relay, timeouts, total, answered. simpl_state.
      match goal with
      | |- context [SignRelay (sigs w) (privKey cl) ?rq] =>
        destruct (Hsign rq) as [sig Hsig]; rewrite Hsig
      end.
      simpl_state. rewrite Hunary.
      match goal with
      | |- context [Relay w ?tr ?e ?c ?rq] =>
        destruct (Hslow tr c rq) as [err [Herr Htext]]; rewrite Herr
      end.
      unfold send_failed.
      apply is_deadline_exceeded_iff in Htext. rewrite Htext.
      simpl_state. eexists. eexists. split; [ reflexivity | ].
      simpl_state.
      rewrite !incr_uint64_below_max by (unfold timeouts, total in *; lia).
      auto. }
    destruct Hstep as (s1 & res & Hcall & Ht1 & Hn1 & Ha1 & Hend).
    rewrite Hcall.
    rewrite Nat2Z.inj_succ in Ht, Hn |- *.
    assert (Hslow1 :
              forall tr c request, exists err,
                Relay w tr (Endpoint (consumerSession s1)) c request = Err err
                /\ Error err = "context deadline exceeded")
      by (rewrite Hend; exact Hslow).
    destruct (IH s1 Hslow1 ltac:(lia) ltac:(lia) ltac:(lia) ltac:(lia))
      as (Ht2 & Hn2 & Ha2).
    rewrite Ht2, Hn2, Ha2. lia.
Qed.
End OrchestrationFacts.

(** ** SendRelay from the outside *)

(** When the parser rejects the request, [SendRelay] returns the parser's
    error with a nil reply and a nil stream, and the trace is as it was. *)
Lemma SendRelay_parse_error (w : World) (ctx : Context) (cp : ChainProxy)
    (privKey : PrivateKey) (url req connectionType : string)
    (tr : list Event) (err : error) :
  ParseMsg cp url (list_byte_of_string req) connectionType = Err err ->
  SendRelay w ctx cp privKey url req connectionType tr
  = (tr, Returned (None, None, Some err)).
Proof.
  intros Hparse. unfold SendRelay. rewrite Hparse. reflexivity.
Qed.

(** When the session manager has no session to give, [SendRelay] returns
    the manager's error with a nil reply and a nil stream after that one
    call. *)
Lemma SendRelay_lease_error (w : World) (ctx : Context) (cp : ChainProxy)
    (privKey : PrivateKey) (url req connectionType : string)
    (tr : list Event) (nodeMsg : NodeMessage) (err : error) :
  ParseMsg cp url (list_byte_of_string req) connectionType = Ok nodeMsg ->
  GetSession (GetConsumerSessionManager cp) ctx
    (ComputeUnits (GetServiceApi nodeMsg)) = Err err ->
  SendRelay w ctx cp privKey url req connectionType tr
  = (tr ++ [EvGetSession ctx (ComputeUnits (GetServiceApi nodeMsg))],
     Returned (None, None, Some err)).
Proof.
  intros Hparse Hlease. unfold SendRelay. rewrite Hparse, Hlease.
  reflexivity.
Qed.

(** X18. [SendRelay] returns without a reply exactly when the parser
    rejected the request or the session manager had no session to lease.
    It then returns that error with a nil stream, and the trace shows at
    most the one call to the session manager: the orchestrator was not run,
    nothing was signed, sent or released.  Once a session is leased
    [SendRelay] never returns a nil reply. *)
Theorem SendRelay_returns_no_reply_iff_early_exit (w : World) (ctx : Context)
    (cp : ChainProxy) (privKey : PrivateKey) (url req connectionType : string)
    (tr tr' : list Event) (replyServer : option (option SubscribeClient))
    (err : option error) :
  SendRelay w ctx cp privKey url req connectionType tr
  = (tr', Returned (None, replyServer, err))
  <-> replyServer = None
      /\ exists e,
           err = Some e
           /\ (ParseMsg cp url (list_byte_of_string req) connectionType = Err e
               /\ tr' = tr
               \/ exists nodeMsg,
                    ParseMsg cp url (list_byte_of_string req) connectionType
                    = Ok nodeMsg
                    /\ GetSession (GetConsumerSessionManager cp) ctx
                         (ComputeUnits (GetServiceApi nodeMsg)) = Err e
                    /\ tr' = tr ++ [EvGetSession ctx
                                      (ComputeUnits (GetServiceApi nodeMsg))]).
Proof.
  split.
  - unfold SendRelay.
    destruct (ParseMsg cp url _ connectionType) as [nodeMsg | e] eqn:Hparse.
    2:{ intros H. injection H as Htr Hrs Herr. subst.
        split; [ reflexivity | ]. exists e. split; [ reflexivity | ].
        left. split; reflexivity. }
    destruct (GetSession _ ctx _)
      as [[[[session epoch] provider] reported] | e] eqn:Hlease.
    2:{ intros H. injection H as Htr Hrs Herr. subst.
        split; [ reflexivity | ]. exists e. split; [ reflexivity | ].
        right. exists nodeMsg. repeat split; reflexivity || assumption. }
    match goal with
    | |- context [run_orchestration w ?cl ?o ?s] =>
      destruct (run_orchestration w cl o s) as [s' [[[r rs] e] | msg]]
    end; [ | discriminate ].
    destruct r as [r | ]; discriminate.
  - intros (Hrs & e & Herr & [[Hparse Htr] | (nodeMsg & Hparse & Hlease & Htr)]);
      subst.
    + apply SendRelay_parse_error. exact Hparse.
    + apply SendRelay_lease_error; assumption.
Qed.

(** X19. In one call [SendRelay] tells the session manager at most once
    that a session is done, and it does so exactly when it returns a
    reply. *)
Theorem SendRelay_releases_iff_reply (w : World) (ctx : Context)
    (cp : ChainProxy) (privKey : PrivateKey) (url req connectionType : string)
    (tr : list Event) :
  let '(tr', out) := SendRelay w ctx cp privKey url req connectionType tr in
  releases tr'
  = (releases tr
     + match out with
       | Returned (Some _, _, _) => 1
       | _ => 0
       end)%nat.
Proof.
  pose proof (SendRelay_release_accounting w ctx cp privKey url req
                connectionType tr) as H.
  destruct (SendRelay w ctx cp privKey url req connectionType tr)
    as [tr' [[[[r | ] rs] err] | msg]]; rewrite H; lia.
Qed.

(** X20. Whenever [SendRelay] returns a reply, with or without an error
    beside it, its last act was to tell the session manager that the leased
    session is done, with the epoch of the lease and the LatestBlock of that
    reply; before that it had not released anything. *)
Theorem SendRelay_reports_latest_block (w : World) (ctx : Context)
    (cp : ChainProxy) (privKey : PrivateKey) (url req connectionType : string)
    (tr tr' : list Event) (reply : RelayReply)
    (replyServer : option (option SubscribeClient)) (err : option error) :
  SendRelay w ctx cp privKey url req connectionType tr
  = (tr', Returned (Some reply, replyServer, err)) ->
  exists nodeMsg session epoch provider reported before cs,
    ParseMsg cp url (list_byte_of_string req) connectionType = Ok nodeMsg
    /\ GetSession (GetConsumerSessionManager cp) ctx
         (ComputeUnits (GetServiceApi nodeMsg))
       = Ok (session, epoch, provider, reported)
    /\ tr' = before ++ [EvOnSessionDone cs epoch (LatestBlock reply)]
    /\ releases before = releases tr.
Proof.
  unfold SendRelay.
  destruct (ParseMsg cp url _ connectionType) as [nodeMsg | e] eqn:Hparse;
    [ | discriminate ].
  destruct (GetSession _ ctx _)
    as [[[[session epoch] provider] reported] | e] eqn:Hlease;
    [ | discriminate ].
  match goal with
  | |- context [run_orchestration w ?cl ?o ?s] =>
    pose proof (run_orchestration_releases w cl o s) as Hrel;
      destruct (run_orchestration w cl o s) as [s' [[[r rs] e] | msg]]
  end; cbn [fst initial_state trace] in Hrel; [ | discriminate ].
  destruct r as [r | ]; [ | discriminate ].
  intros H. injection H as Htr Hreply _ _. subst tr' r.
  exists nodeMsg, session, epoch, provider, reported, (trace s'),
    (consumerSession s').
  split; [ reflexivity || exact Hparse | ].
  split; [ reflexivity || exact Hlease | ].
  split; [ reflexivity | ].
  rewrite Hrel, releases_app. cbn. lia.
Qed.

(** ** Telling primary from reliability requests *)

(** X21. The primary request carries the session id converted to uint64: a
    value from 0 to 2^64 - 1, which for a session id in the int64 range is 0
    only if the session id itself is 0.  So for any other session a primary
    request cannot be taken for a reliability request, whose SessionId is
    0. *)
Theorem primary_request_session_id (cl : Closure)
    (unresponsiveProviders : bytes) (s : RelayState)
    (dataReliability : option VRFData) (unresponsiveProviders' : bytes)
    (s' : RelayState) :
  - 2 ^ 63 <= session_SessionId (consumerSession s) < 2 ^ 63 ->
  let primary := primary_request cl unresponsiveProviders s in
  0 <= SessionId primary < 2 ^ 64
  /\ (SessionId primary = 0 <-> session_SessionId (consumerSession s) = 0)
  /\ (session_SessionId (consumerSession s) <> 0 ->
      SessionId primary
      <> SessionId (reliability_request cl dataReliability
                      unresponsiveProviders' s')).
Proof.
  intros Hrange primary. subst primary.
  cbn [primary_request SessionId reliability_request]. unfold uint64.
  assert (Hzero : 0 mod 2 ^ 64 = 0) by reflexivity. rewrite Hzero.
  assert (Hiff : session_SessionId (consumerSession s) mod 2 ^ 64 = 0
                 <-> session_SessionId (consumerSession s) = 0).
  { split; [ | intros H; rewrite H; reflexivity ].
    intros H. destruct (Z.neg_nonneg_cases (session_SessionId (consumerSession s)))
      as [Hneg | Hpos].
    - replace (session_SessionId (consumerSession s))
        with (session_SessionId (consumerSession s) + 2 ^ 64 + (-1) * 2 ^ 64)
        in H by lia.
      rewrite Z.mod_add in H by lia. rewrite Z.mod_small in H by lia. lia.
    - rewrite Z.mod_small in H by lia. exact H. }
  split; [ apply Z.mod_pos_bound; lia | ].
  split; [ exact Hiff | ].
  intros Hnz Heq. apply Hnz. apply Hiff. exact Heq.
Qed.

(** ** The further properties on the concrete network *)

Lemma callback_send_relay_reply_is_verified_witness :
  snd (callback_send_relay toy_world (unary_to "honest") [] (fresh_at "honest"))
  = (Some (toy_reply "lava@provider" "lava@provider"), Some None,
     Some (toy_UpdateRequestedBlock
             (set_Sig (primary_request (unary_to "honest") []
                         (set_blockHeight 20 (fresh_at "honest"))) toy_key)
             (toy_reply "lava@provider" "lava@provider")), None)
  /\ VerifyRelayReply toy_sigs toy_sdk
       (toy_reply "lava@provider" "lava@provider")
       (toy_UpdateRequestedBlock
          (set_Sig (primary_request (unary_to "honest") []
                      (set_blockHeight 20 (fresh_at "honest"))) toy_key)
          (toy_reply "lava@provider" "lava@provider"))
       "lava@provider" false = None.
Proof.
  assert (Hres :
            snd (callback_send_relay toy_world (unary_to "honest") []
                   (fresh_at "honest"))
            = (Some (toy_reply "lava@provider" "lava@provider"), Some None,
               Some (toy_UpdateRequestedBlock
                       (set_Sig (primary_request (unary_to "honest") []
                                   (set_blockHeight 20 (fresh_at "honest")))
                          toy_key)
                       (toy_reply "lava@provider" "lava@provider")), None))
    by reflexivity.
  split; [ exact Hres | ].
  destruct (callback_send_relay_reply_is_verified toy_world
              (unary_to "honest") [] (fresh_at "honest") _ _ _ _ Hres)
    as (_ & _ & sig & Hsign & _ & _ & Hverify).
  injection Hsign as Hsig. subst sig. exact Hverify.
Defined.

Lemma subscription_is_only_counted_witness :
  let '(s', res) :=
    callback_send_relay toy_world (toy_closure "honest" true toy_key) []
      (fresh_at "honest") in
  res = (None, Some (Some 7%N),
         Some (set_Sig (primary_request (toy_closure "honest" true toy_key) []
                          (set_blockHeight 20 (fresh_at "honest"))) toy_key),
         None)
  /\ total s' = 1 /\ answered s' = 0 /\ requestedBlock s' = 0.
Proof.
  pose proof (subscription_is_only_counted toy_world
                (toy_closure "honest" true toy_key) [] (fresh_at "honest")
                toy_key 7%N eq_refl eq_refl eq_refl) as H.
  destruct (callback_send_relay toy_world (toy_closure "honest" true toy_key)
              [] (fresh_at "honest")) as [s' res].
  destruct H as (Hres & Hsession & Hblock & _).
  split; [ exact Hres | ].
  unfold total, answered. rewrite Hsession, Hblock.
  repeat split; reflexivity.
Defined.

Lemma blockHeight_after_relay_witness :
  0 <= epoch (unary_to "slow") < 2 ^ 63
  /\ blockHeight (relayed_at "slow") = 20.
Proof.
  assert (Hrange : 0 <= epoch (unary_to "slow") < 2 ^ 63) by (cbn; lia).
  split; [ exact Hrange | ].
  destruct (blockHeight_after_relay toy_world (unary_to "slow") []
              (fresh_at "slow")) as (_ & Hlow & _).
  exact (Hlow Hrange).
Defined.

Lemma callback_send_reliability_reply_is_verified_witness :
  snd (callback_send_reliability toy_world (unary_to "honest")
         (Some (toy_vrf "proof")) [] (relayed_at "honest"))
  = Returned
      (Some (toy_reply "lava@provider" "lava@provider"),
       Some (set_DataReliability
               (set_Sig (reliability_request (unary_to "honest")
                           (Some (toy_vrf "proof")) [] (relayed_at "honest"))
                  toy_key)
               (Some (set_vrf_Sig (toy_vrf "proof") toy_key))), None)
  /\ 0 <= blockHeight (relayed_at "honest").
Proof.
  assert (Hres :
            snd (callback_send_reliability toy_world (unary_to "honest")
                   (Some (toy_vrf "proof")) [] (relayed_at "honest"))
            = Returned
                (Some (toy_reply "lava@provider" "lava@provider"),
                 Some (set_DataReliability
                         (set_Sig (reliability_request (unary_to "honest")
                                     (Some (toy_vrf "proof")) []
                                     (relayed_at "honest")) toy_key)
                         (Some (set_vrf_Sig (toy_vrf "proof") toy_key))),
                 None))
    by (vm_compute; reflexivity).
  split; [ exact Hres | ].
  destruct (callback_send_reliability_reply_is_verified toy_world
              (unary_to "honest") _ _ _ _ _ _ Hres) as (_ & Hheight & _).
  exact Hheight.
Defined.

Lemma reliability_refused_for_late_epoch_witness :
  callback_send_reliability toy_world
    (with_epoch (unary_to "honest") (2 ^ 63)) (Some (toy_vrf "proof")) []
    (fst (callback_send_relay toy_world
            (with_epoch (unary_to "honest") (2 ^ 63)) [] (fresh_at "honest")))
  = (fst (callback_send_relay toy_world
            (with_epoch (unary_to "honest") (2 ^ 63)) [] (fresh_at "honest")),
     Returned (None, None, Some called_too_early)).
Proof.
  apply (reliability_refused_for_late_epoch toy_world
           (with_epoch (unary_to "honest") (2 ^ 63))).
  cbn [epoch with_epoch]. lia.
Defined.

Lemma successive_timeouts_add_up_witness :
  timeouts (fst (run_orchestration toy_world (unary_to "slow")
                   (retry_relay 3 []) (fresh_at "slow"))) = 3
  /\ total (fst (run_orchestration toy_world (unary_to "slow")
                   (retry_relay 3 []) (fresh_at "slow"))) = 3
  /\ answered (fst (run_orchestration toy_world (unary_to "slow")
                      (retry_relay 3 []) (fresh_at "slow"))) = 0.
Proof.
  assert (Hsign : forall request, exists sig,
             SignRelay (sigs toy_world) (privKey (unary_to "slow")) request
             = Ok sig)
    by (intros request; exists toy_key; reflexivity).
  assert (Hslow : forall tr c request, exists err,
             Relay toy_world tr
               (Endpoint (consumerSession (fresh_at "slow"))) c request
             = Err err
             /\ Error err = "context deadline exceeded").
  { intros tr c request. exists context_DeadlineExceeded.
    split; reflexivity. }
  assert (Hzero : 0 <= 0) by lia.
  assert (Hroom : 0 + Z.of_nat 3 <= max_uint64) by (vm_compute; discriminate).
  destruct (successive_timeouts_add_up toy_world (unary_to "slow") 3 []
              eq_refl Hsign (fresh_at "slow") Hslow Hzero Hroom Hzero Hroom)
    as (Ht & Hn & Ha).
  split; [ exact Ht | ]. split; [ exact Hn | exact Ha ].
Defined.

Lemma SendRelay_parse_error_witness :
  SendRelay toy_world context_Background deaf_proxy toy_key "/block"
    "{not json" "POST" []
  = ([], Returned (None, None, Some unparsable)).
Proof.
  apply SendRelay_parse_error. reflexivity.
Defined.

Lemma SendRelay_lease_error_witness :
  SendRelay toy_world context_Background empty_proxy toy_key "/block"
    "eth_blockNumber" "POST" []
  = ([EvGetSession context_Background 10],
     Returned (None, None, Some no_pairing)).
Proof.
  apply (SendRelay_lease_error toy_world context_Background empty_proxy
           toy_key "/block" "eth_blockNumber" "POST" []
           {| GetServiceApi :=
                {| ComputeUnits := 10;
                   Category := {| Deterministic := true;
                                  Subscription := false |} |};
              RequestedBlock := LATEST_BLOCK |}).
  - reflexivity.
  - reflexivity.
Defined.

Lemma primary_request_session_id_witness :
  SessionId (primary_request (unary_to "honest") [] (fresh_at "honest")) = 42
  /\ SessionId (primary_request (unary_to "honest") [] (fresh_at "honest"))
     <> SessionId (reliability_request (unary_to "honest")
                     (Some (toy_vrf "proof")) [] (relayed_at "honest")).
Proof.
  assert (Hrange :
            - 2 ^ 63
            <= session_SessionId (consumerSession (fresh_at "honest"))
            < 2 ^ 63) by (cbn; lia).
  destruct (primary_request_session_id (unary_to "honest") []
              (fresh_at "honest") (Some (toy_vrf "proof")) []
              (relayed_at "honest") Hrange) as (_ & _ & Hdiff).
  split; [ reflexivity | ]. apply Hdiff. cbn. discriminate.
Defined.

Lemma SendRelay_reports_latest_block_witness :
  exists before cs,
    fst (SendRelay toy_world context_Background (toy_proxy "honest" false)
           toy_key "/block" "eth_blockNumber" "POST" [])
    = before ++ [EvOnSessionDone cs 20 120]
    /\ releases before = 0%nat.
Proof.
  assert (Hres :
            SendRelay toy_world context_Background (toy_proxy "honest" false)
              toy_key "/block" "eth_blockNumber" "POST" []
            = (fst (SendRelay toy_world context_Background
                      (toy_proxy "honest" false) toy_key "/block"
                      "eth_blockNumber" "POST" []),
               Returned (Some (toy_reply "lava@provider" "lava@provider"),
                         Some None, None)))
    by (vm_compute; reflexivity).
  destruct (SendRelay_reports_latest_block _ _ _ _ _ _ _ _ _ _ _ _ Hres)
    as (nodeMsg & session & epoch & provider & reported & before & cs
        & Hparse & Hlease & Htr & Hrel).
  injection Hlease as _ Hepoch _ _. subst epoch.
  exists before, cs. split; [ exact Htr | exact Hrel ].
Defined.
